(** * pysonica: request pipeline and session manager

    A shallow embedding of the service scaffold's core:
    - [app/errors]: the domain exception hierarchy, the uniform error body,
      the typed exception handlers and the catch-all ASGI middleware;
    - [app/security], [app/logging]: the security-headers and access-log
      ASGI middlewares;
    - [app/health]: the readiness aggregator;
    - [app/database]: the [DatabaseSessionManager] life cycle and its scoped
      sessions.

    Python code that mutates state or raises is written in a state-and-
    exception monad: a computation takes the state, returns either a value
    or a raised exception, and the state it left behind (side effects made
    before a [raise] stay made, as in Python). *)

From Stdlib Require Import String Ascii List Bool ZArith Lia.
Import ListNotations.
Open Scope string_scope.
Open Scope list_scope.
Open Scope Z_scope.

Set Implicit Arguments.

(* ================================================================== *)
(** * Part I. Definitions                                               *)
(* ================================================================== *)

(** ** Python values *)

(** The values that travel as keyword context, log fields and JSON bodies. *)
#[warnings="-register-all"]
Inductive pyval : Type :=
| VNone
| VBool (b : bool)
| VInt (z : Z)
| VStr (s : string)
| VList (l : list pyval)
| VDict (d : list (string * pyval)).

(** ** Insertion-ordered dictionaries with string keys

    A Python [dict] keeps its keys in insertion order; assigning to a key
    that is present replaces the value where it stands, assigning to a new
    key appends it. *)
Module PyDict.
Section Ops.
Variable V : Type.

Definition t := list (string * V).

Definition empty : t := [].

Fixpoint get (k : string) (d : t) : option V :=
  match d with
  | [] => None
  | (k', v) :: d' => if String.eqb k k' then Some v else get k d'
  end.

(** [d[k] = v] *)
Fixpoint set (k : string) (v : V) (d : t) : t :=
  match d with
  | [] => [(k, v)]
  | (k', v') :: d' =>
      if String.eqb k k' then (k', v) :: d' else (k', v') :: set k v d'
  end.

(** [d.pop(k, None)]: the key is gone afterwards, present or not before. *)
Fixpoint pop (k : string) (d : t) : t :=
  match d with
  | [] => []
  | (k', v') :: d' =>
      if String.eqb k k' then pop k d' else (k', v') :: pop k d'
  end.

Definition keys (d : t) : list string := map fst d.
Definition values (d : t) : list V := map snd d.
Definition items (d : t) : list (string * V) := d.

Definition mem (k : string) (d : t) : bool :=
  match get k d with Some _ => true | None => false end.

(** A well-formed dictionary has no repeated key. *)
Definition wf (d : t) : Prop := NoDup (keys d).

End Ops.
End PyDict.

Definition str_mem (k : string) (l : list string) : bool :=
  existsb (String.eqb k) l.

(** ** Strings *)

Definition lower_ascii (c : ascii) : ascii :=
  let n := nat_of_ascii c in
  if andb (Nat.leb 65 n) (Nat.leb n 90) then ascii_of_nat (n + 32) else c.

(** [str.lower()] on the ASCII range, which is where header names live. *)
Fixpoint lower (s : string) : string :=
  match s with
  | EmptyString => EmptyString
  | String c s' => String (lower_ascii c) (lower s')
  end.

(** [str.isspace] on the code points below 256 (a header value is decoded
    as latin-1): 9 to 13, 28 to 32, 133 and 160. *)
Definition is_space (c : ascii) : bool :=
  let n := nat_of_ascii c in
  orb (orb (Nat.eqb n 32) (andb (Nat.leb 9 n) (Nat.leb n 13)))
      (orb (andb (Nat.leb 28 n) (Nat.leb n 31))
           (orb (Nat.eqb n 133) (Nat.eqb n 160))).

Fixpoint lstrip (s : string) : string :=
  match s with
  | EmptyString => EmptyString
  | String c s' => if is_space c then lstrip s' else s
  end.

Fixpoint rev_string (s : string) (acc : string) : string :=
  match s with
  | EmptyString => acc
  | String c s' => rev_string s' (String c acc)
  end.

(** [s.strip()] *)
Definition strip (s : string) : string :=
  rev_string (lstrip (rev_string (lstrip s) "")) "".

(** [s.split(",")[0]] *)
Fixpoint split_comma_first (s : string) : string :=
  match s with
  | EmptyString => EmptyString
  | String c s' =>
      if Ascii.eqb c ","%char then EmptyString
      else String c (split_comma_first s')
  end.

(** [needle in hay] *)
Fixpoint contains (needle hay : string) : bool :=
  if String.prefix needle hay then true
  else match hay with
       | EmptyString => false
       | String _ hay' => contains needle hay'
       end.

(** ** Exceptions

    Values of [exc] stand for instances of Python's [Exception], the class
    every [except Exception] clause of the source catches. *)

Module DomainError.

(** The classes of [app/errors/exceptions.py]. *)
Inductive cls : Type :=
| DomainError
| NotFoundError
| ConflictError
| ValidationError
| PermissionDeniedError
| AuthenticationError.

(** [type(exc).__name__] *)
Definition __name__ (c : cls) : string :=
  match c with
  | DomainError => "DomainError"
  | NotFoundError => "NotFoundError"
  | ConflictError => "ConflictError"
  | ValidationError => "ValidationError"
  | PermissionDeniedError => "PermissionDeniedError"
  | AuthenticationError => "AuthenticationError"
  end.

(** The class attribute [status_code]. *)
Definition class_status_code (c : cls) : Z :=
  match c with
  | DomainError => 500
  | NotFoundError => 404
  | ConflictError => 409
  | ValidationError => 422
  | PermissionDeniedError => 403
  | AuthenticationError => 401
  end.

(** The class attribute [detail], inherited by every subclass. *)
Definition class_detail (c : cls) : string := "An unexpected error occurred.".

(** An instance: its class and the attributes the handler reads. *)
Record t : Type := mk {
  class : cls;
  status_code : Z;
  detail : string;
  extra : PyDict.t pyval
}.

(** [DomainError.__init__(self, detail=None, *, status_code=None, **extra)],
    inherited unchanged by every subclass but [NotFoundError]. *)
Definition __init__ (c : cls) (detail : option string)
    (status_code : option Z) (extra : PyDict.t pyval) : t :=
  {| class := c;
     detail := match detail with Some d => d | None => class_detail c end;
     status_code :=
       match status_code with Some s => s | None => class_status_code c end;
     extra := extra |}.

(** [NotFoundError.__init__(self, resource="Resource", **extra)]: the detail
    is synthesized, the status stays the class's, and every keyword lands in
    [extra]. *)
Definition NotFoundError__init__ (resource : option string)
    (extra : PyDict.t pyval) : t :=
  let resource := match resource with Some r => r | None => "Resource" end in
  let self := __init__ NotFoundError (Some (resource ++ " not found")%string) None [] in
  {| class := class self;
     status_code := status_code self;
     detail := detail self;
     extra := extra |}.

End DomainError.

Inductive exc : Type :=
| DomainExc (e : DomainError.t)
    (* app.errors.DomainError and its subclasses *)
| StarletteHTTPException (status_code : Z) (detail : string)
    (* routing-level failures: 404, 405, ... *)
| RequestValidationError (errors : list pyval)
    (* request-shape validation failure *)
| PyException (type_name : string) (message : string).
    (* any other Exception *)

Definition type_name (e : exc) : string :=
  match e with
  | DomainExc d => DomainError.__name__ (DomainError.class d)
  | StarletteHTTPException _ _ => "HTTPException"
  | RequestValidationError _ => "RequestValidationError"
  | PyException n _ => n
  end.

Definition TypeError (msg : string) : exc := PyException "TypeError" msg.
Definition RuntimeError (msg : string) : exc := PyException "RuntimeError" msg.
Definition TimeoutError : exc := PyException "TimeoutError" "".
Definition AssertionError : exc := PyException "AssertionError" "".

Definition is_TimeoutError (e : exc) : bool :=
  match e with
  | PyException n _ => String.eqb n "TimeoutError"
  | _ => false
  end.

(** ** The state-and-exception monad *)

Inductive result (A : Type) : Type :=
| Ok (a : A)
| Raise (e : exc).
Arguments Ok {A} a.
Arguments Raise {A} e.

Definition M (S A : Type) : Type := S -> result A * S.

Section Monad.
Variables S : Type.

Definition ret {A} (a : A) : M S A := fun s => (Ok a, s).

Definition raise {A} (e : exc) : M S A := fun s => (Raise e, s).

Definition bind {A B} (m : M S A) (k : A -> M S B) : M S B :=
  fun s =>
    match m s with
    | (Ok a, s') => k a s'
    | (Raise e, s') => (Raise e, s')
    end.

(** [try: m  except Exception as e: h e] *)
Definition try_except {A} (m : M S A) (h : exc -> M S A) : M S A :=
  fun s =>
    match m s with
    | (Ok a, s') => (Ok a, s')
    | (Raise e, s') => h e s'
    end.

(** [try: m  finally: f]: [f] always runs; if it raises, its exception
    replaces the outcome of [m]. *)
Definition try_finally {A} (m : M S A) (f : M S unit) : M S A :=
  fun s =>
    match m s with
    | (r, s') =>
        match f s' with
        | (Ok _, s'') => (r, s'')
        | (Raise e, s'') => (Raise e, s'')
        end
    end.

Definition get_state : M S S := fun s => (Ok s, s).
Definition modify (f : S -> S) : M S unit := fun s => (Ok tt, f s).

End Monad.

Arguments ret {S A} a.
Arguments raise {S A} e.
Arguments get_state {S}.

Declare Scope py_scope.
Delimit Scope py_scope with py.
Notation "x <- m ;; k" := (bind m (fun x => k))
  (at level 61, m at next level, right associativity) : py_scope.
Notation "m ;; k" := (bind m (fun _ => k))
  (at level 61, right associativity) : py_scope.
Open Scope py_scope.

(** A call [f(k1=v1, ..., **star)]: Python raises [TypeError] before [f] is
    entered when a key of [star] repeats an explicit keyword (the message
    is given without the name of [f] that leads it). *)
Definition call_kwargs (explicit : list (string * pyval))
    (star : PyDict.t pyval) : result (list (string * pyval)) :=
  match find (fun k => str_mem k (PyDict.keys explicit)) (PyDict.keys star) with
  | Some k => Raise (TypeError
                 ("got multiple values for keyword argument '" ++ k ++ "'")%string)
  | None => Ok (explicit ++ star)
  end.

Definition lift_result {S A} (r : result A) : M S A := fun s => (r, s).

(** A call [logger.method(event, k1=v1, ..., **star)]: besides the keywords
    given explicitly, a key ["event"] of [star] collides with the first
    parameter of the logger's methods, which the positional argument has
    bound. *)
Definition call_logger_kwargs (explicit : list (string * pyval))
    (star : PyDict.t pyval) : result (list (string * pyval)) :=
  match call_kwargs explicit star with
  | Raise e => Raise e
  | Ok kw =>
      if str_mem "event" (PyDict.keys star)
      then Raise (TypeError "got multiple values for argument 'event'")
      else Ok kw
  end.

(** ** ASGI: scopes, messages, the process state *)

(** The connection scope; [headers] holds the raw (name, value) pairs the
    server hands over, names already lower-cased by the server. *)
Record Scope : Type := mkScope {
  scope_type : string;                    (* scope["type"] *)
  scope_method : string;                  (* scope["method"] *)
  scope_path : string;                    (* scope["path"] *)
  scope_headers : list (string * string); (* scope["headers"] *)
  scope_client : option (string * Z)      (* scope.get("client") *)
}.

(** The messages an application hands to [send].  A JSON body is carried as
    the value that is rendered to bytes; [headers] may be absent from a
    response-start message. *)
Inductive Message : Type :=
| http_response_start (status : Z) (headers : option (list (string * string)))
| http_response_body (body : pyval)
| other_message (type : string) (payload : pyval).

Definition message_type (m : Message) : string :=
  match m with
  | http_response_start _ _ => "http.response.start"
  | http_response_body _ => "http.response.body"
  | other_message t _ => t
  end.

(** One line of the structured log: the processors merge the bound context
    variables into every record. *)
Record LogRecord : Type := mkLogRecord {
  level : string;
  event : string;
  fields : list (string * pyval);
  exc_info : option exc;
  context : PyDict.t pyval
}.

(** What one worker process holds besides the objects passed around. *)
Record World : Type := mkWorld {
  contextvars : PyDict.t pyval;  (* structlog.contextvars *)
  log : list LogRecord;          (* what the logger has written *)
  clock : Z;                     (* time.perf_counter, in clock ticks *)
  cells : list Z;                (* variables captured by closures (nonlocal) *)
  wire : list Message            (* what the server has been sent *)
}.

Definition with_contextvars (c : PyDict.t pyval) (w : World) : World :=
  mkWorld c (log w) (clock w) (cells w) (wire w).
Definition with_log (l : list LogRecord) (w : World) : World :=
  mkWorld (contextvars w) l (clock w) (cells w) (wire w).
Definition with_cells (c : list Z) (w : World) : World :=
  mkWorld (contextvars w) (log w) (clock w) c (wire w).
Definition with_wire (m : list Message) (w : World) : World :=
  mkWorld (contextvars w) (log w) (clock w) (cells w) m.

Definition Send : Type := Message -> M World unit.
Definition Receive : Type := M World Message.
Definition ASGIApp : Type := Scope -> Receive -> Send -> M World unit.

(** The [send] of a server that just records what it is given. *)
Definition wire_send : Send :=
  fun message => modify (fun w => with_wire (wire w ++ [message]) w).

(** A closure variable: allocation, read, assignment. *)
Definition new_cell (v : Z) : M World nat :=
  fun w => (Ok (length (cells w)), with_cells (cells w ++ [v]) w).
Definition read_cell (i : nat) : M World Z :=
  fun w => (Ok (nth i (cells w) 0), w).
Fixpoint list_assign (i : nat) (v : Z) (l : list Z) : list Z :=
  match l, i with
  | [], _ => []
  | _ :: l', O => v :: l'
  | x :: l', S i' => x :: list_assign i' v l'
  end.
Definition write_cell (i : nat) (v : Z) : M World unit :=
  modify (fun w => with_cells (list_assign i v (cells w)) w).

Definition perf_counter : M World Z := fun w => (Ok (clock w), w).

(** ** The logger

    [structlog]'s logger is a module-level object of each source file.  Its
    calls write one record, or raise: [log_fault] says which exception, if
    any, writing a given record raises (a broken handler, a failing
    processor).  A logger that works has no fault. *)
Record Logger : Type := mkLogger {
  log_fault : LogRecord -> option exc
}.

Definition logger_works (logger : Logger) : Prop :=
  forall r, log_fault logger r = None.

Definition working_logger : Logger := mkLogger (fun _ => None).

Definition logger_log (logger : Logger) (lvl ev : string)
    (kw : list (string * pyval)) (info : option exc) : M World unit :=
  fun w =>
    let r := mkLogRecord lvl ev kw info (contextvars w) in
    match log_fault logger r with
    | Some e => (Raise e, w)
    | None => (Ok tt, with_log (log w ++ [r]) w)
    end.

(** [logger.info] / [logger.ainfo], [logger.warning] / [logger.awarning] *)
Definition logger_info logger ev kw := logger_log logger "info" ev kw None.
Definition logger_warning logger ev kw := logger_log logger "warning" ev kw None.
(** [logger.exception] / [logger.aexception]: error level, with the
    exception being handled attached. *)
Definition logger_exception logger ev kw (e : exc) :=
  logger_log logger "error" ev kw (Some e).

(** [structlog.contextvars.clear_contextvars()] *)
Definition clear_contextvars : M World unit :=
  modify (with_contextvars []).

(** [structlog.contextvars.bind_contextvars] with keyword arguments [kw] *)
Definition bind_contextvars (kw : list (string * pyval)) : M World unit :=
  modify (fun w =>
    with_contextvars
      (fold_left (fun d kv => PyDict.set (fst kv) (snd kv) d) kw (contextvars w))
      w).

(** ** Requests and responses (Starlette) *)

(** [Headers.get(key, default)]: the first raw header whose name equals the
    lower-cased key. *)
Fixpoint Headers_get (raw : list (string * string)) (key default : string)
    : string :=
  match raw with
  | [] => default
  | (name, value) :: raw' =>
      if String.eqb name (lower key) then value
      else Headers_get raw' key default
  end.

Record Request : Type := mkRequest { request_scope : Scope }.

Definition request_headers_get (request : Request) (key default : string) :=
  Headers_get (scope_headers (request_scope request)) key default.

Module JSONResponse.
Record t : Type := mk {
  status_code : Z;
  content : pyval
}.

(** The headers Starlette derives for a JSON body (the content length,
    computed from the rendered bytes, is not carried). *)
Definition init_headers : list (string * string) :=
  [("content-type", "application/json")].

(** [await response(scope, receive, send)]: the start message, then the
    body. *)
Definition __call__ (self : t) (scope : Scope) (receive : Receive)
    (send : Send) : M World unit :=
  send (http_response_start (status_code self) (Some init_headers)) ;;
  send (http_response_body (content self)).
End JSONResponse.

(** ** app/errors/schemas.py *)
Module ErrorResponse.
Record t : Type := mk {
  detail : string;
  status_code : Z;
  request_id : string
}.

(** [body.model_dump()] *)
Definition model_dump (self : t) : pyval :=
  VDict [("detail", VStr (detail self));
         ("status_code", VInt (status_code self));
         ("request_id", VStr (request_id self))].
End ErrorResponse.

(** ** app/errors/handlers.py *)

Definition _get_request_id (request : Request) : string :=
  request_headers_get request "x-request-id" "".

Definition _handle_domain_error (logger : Logger) (request : Request)
    (exc : DomainError.t) : M World JSONResponse.t :=
  kw <- lift_result
          (call_logger_kwargs
             [("error_type", VStr (DomainError.__name__ (DomainError.class exc)));
              ("detail", VStr (DomainError.detail exc));
              ("status_code", VInt (DomainError.status_code exc))]
             (DomainError.extra exc)) ;;
  logger_warning logger "domain_error" kw ;;
  let body := ErrorResponse.mk (DomainError.detail exc)
                (DomainError.status_code exc) (_get_request_id request) in
  ret (JSONResponse.mk (DomainError.status_code exc)
         (ErrorResponse.model_dump body)).

Definition _handle_http_error (request : Request) (exc_status_code : Z)
    (exc_detail : string) : M World JSONResponse.t :=
  let detail := exc_detail in
  let body := ErrorResponse.mk detail exc_status_code
                (_get_request_id request) in
  ret (JSONResponse.mk exc_status_code (ErrorResponse.model_dump body)).

Definition _handle_validation_error (logger : Logger) (request : Request)
    (exc_errors : list pyval) : M World JSONResponse.t :=
  logger_warning logger "validation_error" [("errors", VList exc_errors)] ;;
  let body := ErrorResponse.mk "Request validation failed" 422
                (_get_request_id request) in
  ret (JSONResponse.mk 422 (ErrorResponse.model_dump body)).

(** The handlers [register_exception_handlers] attaches, by exception
    class; anything else has no typed handler. *)
Definition exception_handlers (logger : Logger) (e : exc)
    : option (Request -> M World JSONResponse.t) :=
  match e with
  | DomainExc d => Some (fun request => _handle_domain_error logger request d)
  | StarletteHTTPException s d =>
      Some (fun request => _handle_http_error request s d)
  | RequestValidationError errs =>
      Some (fun request => _handle_validation_error logger request errs)
  | PyException _ _ => None
  end.

Definition is_http (scope : Scope) : bool := String.eqb (scope_type scope) "http".
Definition is_websocket (scope : Scope) : bool :=
  String.eqb (scope_type scope) "websocket".

(** Starlette's [ExceptionMiddleware], which runs the registered handler of
    an exception raised below it and, for an HTTP exchange, sends the
    handler's response; an exception without a handler, or one raised by the
    handler, goes on up.  (The routes considered raise before they respond.) *)
Definition ExceptionMiddleware (logger : Logger) (app : ASGIApp) : ASGIApp :=
  fun scope receive send =>
    if negb (orb (is_http scope) (is_websocket scope))
    then app scope receive send
    else
      try_except (app scope receive send)
        (fun e =>
           match exception_handlers logger e with
           | None => raise e
           | Some handler =>
               response <- handler (mkRequest scope) ;;
               if is_http scope
               then JSONResponse.__call__ response scope receive send
               else ret tt
           end).

(** ** app/errors/middleware.py *)

(** The [path] field of the log record is [request.url.path], the path
    component of the URL that Starlette builds from the scope; the record
    here holds the scope's own path, which is that component for a path
    without [?] and [#].  The response does not depend on it. *)
Module UnhandledExceptionMiddleware.
Definition __call__ (logger : Logger) (app : ASGIApp) : ASGIApp :=
  fun scope receive send =>
    if negb (is_http scope) then app scope receive send
    else
      try_except (app scope receive send)
        (fun exc =>
           let request := mkRequest scope in
           let request_id := request_headers_get request "x-request-id" "" in
           try_except
             (logger_exception logger "unhandled_error"
                [("error_type", VStr (type_name exc));
                 ("path", VStr (scope_path scope))] exc)
             (fun _ => ret tt) ;;
           let body := ErrorResponse.mk "Internal server error" 500 request_id in
           let response := JSONResponse.mk 500 (ErrorResponse.model_dump body) in
           JSONResponse.__call__ response scope receive send).
End UnhandledExceptionMiddleware.

(** [register_exception_handlers(app)]: the typed handlers, and the
    catch-all around them. *)
Definition register_exception_handlers (logger : Logger) (app : ASGIApp)
    : ASGIApp :=
  UnhandledExceptionMiddleware.__call__ logger (ExceptionMiddleware logger app).

(** ** app/security/middleware.py *)

Definition _DEFAULT_HEADERS : PyDict.t string :=
  [("X-Frame-Options", "DENY");
   ("X-Content-Type-Options", "nosniff");
   ("Referrer-Policy", "strict-origin-when-cross-origin");
   ("Permissions-Policy", "geolocation=(), camera=(), microphone=()");
   ("X-XSS-Protection", "0");
   ("Cache-Control", "no-store")].

(** Truth value of a [str]: non-empty. *)
Definition truthy (s : string) : bool := negb (String.eqb s "").

Module SecurityHeadersMiddleware.

Record t : Type := mk {
  app : ASGIApp;
  _headers : PyDict.t string;
  _raw_headers : list (string * string)
}.

Definition default_content_security_policy : string := "default-src 'self'".
Definition default_strict_transport_security : string :=
  "max-age=31536000; includeSubDomains".

(** The loop over [custom_headers.items()]. *)
Definition apply_custom_headers (custom_headers : PyDict.t string)
    (headers : PyDict.t string) : PyDict.t string :=
  fold_left
    (fun headers kv =>
       if truthy (snd kv) then PyDict.set (fst kv) (snd kv) headers
       else PyDict.pop (fst kv) headers)
    (PyDict.items custom_headers) headers.

(** [(k.lower().encode(), v.encode())]: strings are byte strings already. *)
Definition raw_header (kv : string * string) : string * string :=
  (lower (fst kv), snd kv).

Definition __init__ (app : ASGIApp) (content_security_policy : string)
    (strict_transport_security : string)
    (custom_headers : option (PyDict.t string)) : t :=
  let headers := _DEFAULT_HEADERS in
  let headers :=
    if truthy content_security_policy
    then PyDict.set "Content-Security-Policy" content_security_policy headers
    else headers in
  let headers :=
    if truthy strict_transport_security
    then PyDict.set "Strict-Transport-Security" strict_transport_security headers
    else headers in
  let headers :=
    match custom_headers with
    | Some custom => apply_custom_headers custom headers
    | None => headers
    end in
  mk app headers (map raw_header (PyDict.items headers)).

Definition send_with_headers (self : t) (send : Send) : Send :=
  fun message =>
    match message with
    | http_response_start status headers =>
        let headers := match headers with Some h => h | None => [] end in
        let headers := headers ++ _raw_headers self in
        send (http_response_start status (Some headers))
    | _ => send message
    end.

Definition __call__ (self : t) : ASGIApp :=
  fun scope receive send =>
    if negb (is_http scope) then app self scope receive send
    else app self scope receive (send_with_headers self send).

End SecurityHeadersMiddleware.

(** ** app/logging/middleware.py *)

(** The loop of [_extract_header] over the raw headers. *)
Fixpoint first_value (headers : list (string * string)) (name : string)
    : string :=
  match headers with
  | [] => ""
  | (header_name, header_value) :: headers' =>
      if String.eqb header_name name then header_value
      else first_value headers' name
  end.

Definition _extract_header (scope : Scope) (name : string) : string :=
  first_value (scope_headers scope) name.

Definition _client_ip (scope : Scope) : string :=
  let forwarded := _extract_header scope "x-forwarded-for" in
  if truthy forwarded then strip (split_comma_first forwarded)
  else match scope_client scope with
       | Some client => fst client
       | None => ""
       end.

Module AccessLogMiddleware.

Definition send_wrapper (status_code : nat) (send : Send) : Send :=
  fun message =>
    match message with
    | http_response_start status _ => write_cell status_code status
    | _ => ret tt
    end ;;
    send message.

(** The [finally] block; the duration is the difference of two clock
    readings (the rounding to hundredths of a millisecond is not carried). *)
Definition log_request (logger : Logger) (scope : Scope) (status_code : nat)
    (start : Z) : M World unit :=
  now <- perf_counter ;;
  status <- read_cell status_code ;;
  logger_info logger "request"
    [("method", VStr (scope_method scope));
     ("path", VStr (scope_path scope));
     ("status_code", VInt status);
     ("duration_ms", VInt (now - start));
     ("client_ip", VStr (_client_ip scope))].

Definition __call__ (logger : Logger) (app : ASGIApp) : ASGIApp :=
  fun scope receive send =>
    if negb (is_http scope) then app scope receive send
    else
      clear_contextvars ;;
      bind_contextvars
        [("request_id", VStr (_extract_header scope "x-request-id"))] ;;
      status_code <- new_cell 500 ;;
      start <- perf_counter ;;
      try_finally
        (try_except (app scope receive (send_wrapper status_code send))
           (fun e => raise e))
        (log_request logger scope status_code start).

End AccessLogMiddleware.

(** ** app/main.py: the middleware stack of [create_app]

    Outermost first: the correlation-id middleware, security headers,
    access log, the catch-all and the typed handlers, the router.
    [CorrelationIdMiddleware] comes from the package asgi_correlation_id
    and is taken as it is given; what it wraps is
    [create_app_below_correlation]. *)
Definition create_app_below_correlation (logger : Logger)
    (is_production : bool) (router : ASGIApp) : ASGIApp :=
  SecurityHeadersMiddleware.__call__
    (SecurityHeadersMiddleware.__init__
       (AccessLogMiddleware.__call__ logger
          (register_exception_handlers logger router))
       SecurityHeadersMiddleware.default_content_security_policy
       (if is_production
        then "max-age=31536000; includeSubDomains" else "")
       None).

Definition create_app (logger : Logger) (is_production : bool)
    (CorrelationIdMiddleware : ASGIApp -> ASGIApp) (router : ASGIApp)
    : ASGIApp :=
  CorrelationIdMiddleware
    (create_app_below_correlation logger is_production router).

(** ** app/health/routes.py *)

(** A readiness condition, a coroutine function: its [__name__], and what
    awaiting it under [asyncio.wait_for] gives: a boolean, or a raised
    exception, the [TimeoutError] of an expired timeout among them.
    (Callables without a [__name__] are not among the values of this
    type.) *)
Record HealthCondition : Type := mkCondition {
  condition_name : string;
  condition_call : M World bool
}.

Record ReadinessReply : Type := mkReply {
  response_status_code : Z;       (* response.status_code *)
  reply_status : string;          (* body["status"] *)
  reply_checks : PyDict.t bool    (* body["checks"] *)
}.

(** One turn of the loop over the conditions. *)
Definition run_condition (logger : Logger) (check_timeout : Z)
    (results : PyDict.t bool) (condition : HealthCondition)
    : M World (PyDict.t bool) :=
  let name := condition_name condition in
  try_except
    (outcome <- condition_call condition ;;
     ret (PyDict.set name outcome results))
    (fun e =>
       if is_TimeoutError e then
         logger_warning logger "readiness_check_timeout"
           [("check", VStr name); ("timeout", VInt check_timeout)] ;;
         ret (PyDict.set name false results)
       else
         logger_exception logger "readiness_check_failed"
           [("check", VStr name)] e ;;
         ret (PyDict.set name false results)).

Fixpoint run_conditions (logger : Logger) (check_timeout : Z)
    (conditions : list HealthCondition) (results : PyDict.t bool)
    : M World (PyDict.t bool) :=
  match conditions with
  | [] => ret results
  | condition :: conditions' =>
      results' <- run_condition logger check_timeout results condition ;;
      run_conditions logger check_timeout conditions' results'
  end.

(** [all(results.values()) if results else True] *)
Definition all_values (results : PyDict.t bool) : bool :=
  match results with
  | [] => true
  | _ => forallb (fun b => b) (PyDict.values results)
  end.

Definition readiness (logger : Logger) (conditions : list HealthCondition)
    (check_timeout : Z) : M World ReadinessReply :=
  results <- run_conditions logger check_timeout conditions [] ;;
  let healthy := all_values results in
  let status_code := if negb healthy then 503 else 200 in
  ret (mkReply status_code (if healthy then "ready" else "not_ready") results).

Definition create_health_router_conditions
    (ready_conditions : option (list HealthCondition)) : list HealthCondition :=
  match ready_conditions with
  | Some (c :: cs) => c :: cs
  | _ => []                         (* [ready_conditions or []] *)
  end.

(** ** app/database/session.py *)

Record AsyncEngine : Type := mkEngine {
  engine_id : nat;
  engine_url : string;
  engine_kwargs : PyDict.t pyval
}.

Record async_sessionmaker : Type := mkSessionmaker {
  sessionmaker_bind : option AsyncEngine;
  expire_on_commit : bool
}.

Record AsyncSession : Type := mkSession {
  session_id : nat;
  session_bind : option AsyncEngine
}.

Record AsyncConnection : Type := mkConnection {
  connection_id : nat;
  connection_engine : AsyncEngine
}.

(** The calls that reach SQLAlchemy, by the identity of their receiver. *)
Inductive db_call : Type :=
| create_engine (engine : nat) (url : string) (kwargs : PyDict.t pyval)
| engine_dispose (engine : nat)
| session_open (session : nat)
| session_commit (session : nat)
| session_rollback (session : nat)
| session_close (session : nat)
| connection_begin (connection : nat)
| connection_commit (connection : nat)
| connection_rollback (connection : nat)
| connection_close (connection : nat).

(** The database side of the process: the calls made so far, in order
    (a call that raised is listed too: it was made), and the next fresh
    object identity. *)
Record Database : Type := mkDatabase {
  next_id : nat;
  calls : list db_call
}.

(** The driver decides which calls raise (a constraint violated at commit,
    a lost connection, a malformed URL). *)
Record Driver : Type := mkDriver {
  fault : db_call -> option exc
}.

Definition driver_call (driver : Driver) (c : db_call) : M Database unit :=
  fun d =>
    let d' := mkDatabase (next_id d) (calls d ++ [c]) in
    match fault driver c with
    | Some e => (Raise e, d')
    | None => (Ok tt, d')
    end.

Definition fresh_id : M Database nat :=
  fun d => (Ok (next_id d), mkDatabase (Datatypes.S (next_id d)) (calls d)).

(** [create_async_engine(url, **engine_kwargs)] *)
Definition create_async_engine (driver : Driver) (url : string)
    (kwargs : PyDict.t pyval) : M Database AsyncEngine :=
  i <- fresh_id ;;
  driver_call driver (create_engine i url kwargs) ;;
  ret (mkEngine i url kwargs).

(** [self._sessionmaker()] *)
Definition sessionmaker_call (driver : Driver) (maker : async_sessionmaker)
    : M Database AsyncSession :=
  i <- fresh_id ;;
  driver_call driver (session_open i) ;;
  ret (mkSession i (sessionmaker_bind maker)).

Definition AsyncSession_commit driver (s : AsyncSession) :=
  driver_call driver (session_commit (session_id s)).
Definition AsyncSession_rollback driver (s : AsyncSession) :=
  driver_call driver (session_rollback (session_id s)).
Definition AsyncSession_close driver (s : AsyncSession) :=
  driver_call driver (session_close (session_id s)).
Definition AsyncEngine_dispose driver (e : AsyncEngine) :=
  driver_call driver (engine_dispose (engine_id e)).

(** [async with engine.begin() as conn]: a connection with a transaction
    that commits when the block ends normally and rolls back when it
    raises; the connection is closed either way. *)
Definition AsyncEngine_begin {A} (driver : Driver) (engine : AsyncEngine)
    (body : AsyncConnection -> M Database A) : M Database A :=
  i <- fresh_id ;;
  driver_call driver (connection_begin i) ;;
  let conn := mkConnection i engine in
  try_finally
    (try_except
       (r <- body conn ;; driver_call driver (connection_commit i) ;; ret r)
       (fun e => driver_call driver (connection_rollback i) ;; raise e))
    (driver_call driver (connection_close i)).

Module DatabaseSessionManager.

(** The instance attributes. *)
Record t : Type := mk {
  _engine : option AsyncEngine;
  _sessionmaker : option async_sessionmaker
}.

(** A manager instance, and the database side it acts on. *)
Record State : Type := mkState {
  self : t;
  database : Database
}.

Definition __init__ : t := mk None None.

Definition lift_db {A} (m : M Database A) : M State A :=
  fun st =>
    match m (database st) with
    | (r, d) => (r, mkState (self st) d)
    end.

Definition get_self : M State t := fun st => (Ok (self st), st).
Definition set_engine (e : option AsyncEngine) : M State unit :=
  modify (fun st => mkState (mk e (_sessionmaker (self st))) (database st)).
Definition set_sessionmaker (m : option async_sessionmaker) : M State unit :=
  modify (fun st => mkState (mk (_engine (self st)) m) (database st)).

Definition init (driver : Driver) (url : string) (pool_size max_overflow : Z)
    (pool_pre_ping echo : bool) (pool_class : option string) : M State unit :=
  let engine_kwargs :=
    [("pool_pre_ping", VBool pool_pre_ping); ("echo", VBool echo)] in
  let engine_kwargs :=
    match pool_class with
    | Some c => PyDict.set "poolclass" (VStr c) engine_kwargs
    | None =>
        PyDict.set "max_overflow" (VInt max_overflow)
          (PyDict.set "pool_size" (VInt pool_size) engine_kwargs)
    end in
  engine <- lift_db (create_async_engine driver url engine_kwargs) ;;
  set_engine (Some engine) ;;
  this <- get_self ;;
  set_sessionmaker (Some (mkSessionmaker (_engine this) false)).

Definition close (driver : Driver) : M State unit :=
  this <- get_self ;;
  match _engine this with
  | Some engine =>
      lift_db (AsyncEngine_dispose driver engine) ;;
      set_engine None ;;
      set_sessionmaker None
  | None => ret tt
  end.

Definition not_initialized : exc :=
  RuntimeError "DatabaseSessionManager is not initialized. Call init() first.".

Definition is_None {A} (o : option A) : bool :=
  match o with None => true | Some _ => false end.

Definition _check_init : M State unit :=
  this <- get_self ;;
  if orb (is_None (_engine this)) (is_None (_sessionmaker this))
  then raise not_initialized
  else ret tt.

(** What the generator does around its [yield]: commit after a block that
    ended normally, roll back and re-raise on an exception from the block or
    from the commit, close in every case. *)
Definition session_scope {A} (driver : Driver) (session : AsyncSession)
    (body : AsyncSession -> M Database A) : M Database A :=
  try_finally
    (try_except
       (r <- body session ;;
        AsyncSession_commit driver session ;;
        ret r)
       (fun e => AsyncSession_rollback driver session ;; raise e))
    (AsyncSession_close driver session).

(** [async with manager.session() as session: body session] *)
Definition session {A} (driver : Driver)
    (body : AsyncSession -> M Database A) : M State A :=
  _check_init ;;
  this <- get_self ;;
  match _sessionmaker this with
  | None => raise AssertionError
  | Some maker =>
      lift_db (session <- sessionmaker_call driver maker ;;
               session_scope driver session body)
  end.

(** [async with manager.connect() as conn: body conn] *)
Definition connect {A} (driver : Driver)
    (body : AsyncConnection -> M Database A) : M State A :=
  _check_init ;;
  this <- get_self ;;
  match _engine this with
  | None => raise AssertionError
  | Some engine => lift_db (AsyncEngine_begin driver engine body)
  end.

(** The [engine] property. *)
Definition engine : M State AsyncEngine :=
  _check_init ;;
  this <- get_self ;;
  match _engine this with
  | None => raise AssertionError
  | Some engine => ret engine
  end.

(** A call on the manager, as its owner makes them. *)
Inductive call : Type :=
| call_init (url : string) (pool_size max_overflow : Z)
    (pool_pre_ping echo : bool) (pool_class : option string)
| call_close
| call_session (body : AsyncSession -> M Database unit)
| call_connect (body : AsyncConnection -> M Database unit).

Definition exec (driver : Driver) (c : call) : M State unit :=
  match c with
  | call_init url pool_size max_overflow pool_pre_ping echo pool_class =>
      init driver url pool_size max_overflow pool_pre_ping echo pool_class
  | call_close => close driver
  | call_session body => session driver body
  | call_connect body => connect driver body
  end.

(** The state after a sequence of calls; a call that raises leaves what it
    had done and the owner goes on. *)
Fixpoint run (driver : Driver) (cs : list call) (st : State) : State :=
  match cs with
  | [] => st
  | c :: cs' => run driver cs' (snd (exec driver c st))
  end.

Definition is_init (c : call) : bool :=
  match c with call_init _ _ _ _ _ _ => true | _ => false end.

(** Every state a manager can be in: from a new instance, by calls. *)
Inductive reachable (driver : Driver) : State -> Prop :=
| reachable_new : forall d, reachable driver (mkState __init__ d)
| reachable_call : forall st c,
    reachable driver st -> reachable driver (snd (exec driver c st)).

(** The engine and the factory are set together, and the factory is bound to
    that engine. *)
Definition paired (m : t) : Prop :=
  match _engine m, _sessionmaker m with
  | None, None => True
  | Some e, Some maker => sessionmaker_bind maker = Some e
  | _, _ => False
  end.

End DatabaseSessionManager.

(** app/database/types.py: the per-request dependency is the scope of the
    process-wide manager. *)
Definition get_db {A} (driver : Driver)
    (request : AsyncSession -> M Database A)
    : M DatabaseSessionManager.State A :=
  DatabaseSessionManager.session driver request.



(** ** Vocabulary of the properties *)

(** The outcome of a step that makes call [c] and then yields [r]: the
    call's own exception when it raises, [r] otherwise. *)
Definition unless_raises {A} (driver : Driver) (c : db_call) (r : result A)
    : result A :=
  match fault driver c with
  | Some e => Raise e
  | None => r
  end.


(** The uniform error body. *)
Definition error_body (detail : string) (status_code : Z)
    (request_id : string) : pyval :=
  VDict [("detail", VStr detail);
         ("status_code", VInt status_code);
         ("request_id", VStr request_id)].

(** The value of the first header named [name], [""] when there is none. *)
Definition first_header (scope : Scope) (name : string) : string :=
  match find (fun h => String.eqb (fst h) name) (scope_headers scope) with
  | Some h => snd h
  | None => ""
  end.

(** The response of the catch-all path: made of constants and of the
    request's correlation header, of nothing else. *)
Definition internal_server_error (scope : Scope) : JSONResponse.t :=
  JSONResponse.mk 500
    (error_body "Internal server error" 500 (first_header scope "x-request-id")).

(** The record the catch-all path tries to log for exception [e], and the
    state after the attempt: the record is written, or the logger raised
    and nothing changed. *)
Definition unhandled_error_record (scope : Scope) (e : exc) (w : World)
    : LogRecord :=
  mkLogRecord "error" "unhandled_error"
    [("error_type", VStr (type_name e)); ("path", VStr (scope_path scope))]
    (Some e) (contextvars w).

Definition after_logging_attempt (logger : Logger) (record : LogRecord)
    (w : World) : World :=
  match log_fault logger record with
  | Some _ => w
  | None => with_log (log w ++ [record]) w
  end.

(** The response to a request-shape validation failure. *)
Definition validation_failed (scope : Scope) : JSONResponse.t :=
  JSONResponse.mk 422
    (error_body "Request validation failed" 422
       (first_header scope "x-request-id")).

(** The response that mirrors a domain failure. *)
Definition domain_error_response (scope : Scope) (exc : DomainError.t)
    : JSONResponse.t :=
  JSONResponse.mk (DomainError.status_code exc)
    (error_body (DomainError.detail exc) (DomainError.status_code exc)
       (first_header scope "x-request-id")).

(** The names a key of a domain failure's context must not repeat: the
    logger's own first parameter and the keywords the domain-error handler
    passes to the logger itself. *)
Definition handler_keywords : list string :=
  ["event"; "error_type"; "detail"; "status_code"].

(** The default header set, as it goes on the wire. *)
Definition default_security_headers_on_the_wire : list (string * string) :=
  [("x-frame-options", "DENY");
   ("x-content-type-options", "nosniff");
   ("referrer-policy", "strict-origin-when-cross-origin");
   ("permissions-policy", "geolocation=(), camera=(), microphone=()");
   ("x-xss-protection", "0");
   ("cache-control", "no-store");
   ("content-security-policy", "default-src 'self'")].

(** The raw headers of the wrapper [create_app] installs. *)
Definition create_app_raw_headers (is_production : bool)
    : list (string * string) :=
  SecurityHeadersMiddleware._raw_headers
    (SecurityHeadersMiddleware.__init__ (fun _ _ _ => ret tt)
       SecurityHeadersMiddleware.default_content_security_policy
       (if is_production
        then "max-age=31536000; includeSubDomains" else "")
       None).

(** What the readiness loop records for the outcome of a condition. *)
Definition recorded (outcome : result bool) : bool :=
  match outcome with
  | Ok passed => passed
  | Raise _ => false
  end.

(** The two messages of a JSON response. *)
Definition response_messages (response : JSONResponse.t) : list Message :=
  [http_response_start (JSONResponse.status_code response)
     (Some JSONResponse.init_headers);
   http_response_body (JSONResponse.content response)].

(** ** Sample objects *)

Definition reliable_driver : Driver := mkDriver (fun _ => None).

Definition IntegrityError : exc :=
  PyException "IntegrityError" "duplicate key value violates unique constraint".

(** A driver on which every commit of a session fails. *)
Definition failing_commit_driver : Driver :=
  mkDriver (fun c =>
    match c with
    | session_commit _ => Some IntegrityError
    | _ => None
    end).

Definition sample_url : string := "postgresql+asyncpg://localhost/app".

Definition new_database : Database := mkDatabase 0 [].

Definition new_manager : DatabaseSessionManager.State :=
  DatabaseSessionManager.mkState DatabaseSessionManager.__init__ new_database.

(** [manager.init(url)] with the defaults of the signature. *)
Definition init_defaults (driver : Driver) (url : string)
    : M DatabaseSessionManager.State unit :=
  DatabaseSessionManager.init driver url 5 10 true false None.

(** A new manager after [init(sample_url)]: it holds engine [0], and the
    next object created has identity [1]. *)
Definition ready_manager (driver : Driver) : DatabaseSessionManager.State :=
  snd (init_defaults driver sample_url new_manager).

Definition new_world : World := mkWorld [] [] 0 [] [].

Definition no_receive : Receive := ret (other_message "http.request" VNone).

(** A GET request for [path], as the test client sends it. *)
Definition get_request (path : string) (headers : list (string * string))
    : Scope :=
  mkScope "http" "GET" path headers (Some ("127.0.0.1", 50000)).

(** A route whose handler raises [e] before it responds. *)
Definition raising_route (e : exc) : ASGIApp := fun _ _ _ => raise e.

(** A route that answers 200 with a JSON value. *)
Definition json_route (content : pyval) : ASGIApp :=
  fun scope receive send =>
    JSONResponse.__call__ (JSONResponse.mk 200 content) scope receive send.

(** A logger whose every call raises. *)
Definition broken_logger : Logger :=
  mkLogger (fun _ => Some (PyException "OSError" "log sink is closed")).

(** [ConflictError("Email already registered", error_type="duplicate_email")] *)
Definition conflict_with_error_type : DomainError.t :=
  DomainError.__init__ DomainError.ConflictError
    (Some "Email already registered") None
    [("error_type", VStr "duplicate_email")].

(** [NotFoundError("Order", order_id="abc-123")] *)
Definition order_not_found : DomainError.t :=
  DomainError.NotFoundError__init__ (Some "Order")
    [("order_id", VStr "abc-123")].

(** [NotFoundError("Order", status_code=410)] *)
Definition order_gone : DomainError.t :=
  DomainError.NotFoundError__init__ (Some "Order")
    [("status_code", VInt 410)].

(** A protocol upgrade. *)
Definition websocket_scope : Scope :=
  mkScope "websocket" "" "/ws" [("x-request-id", "req-9")]
    (Some ("127.0.0.1", 50001)).

(** An application that accepts the upgrade, then fails. *)
Definition failing_websocket_app : ASGIApp :=
  fun scope receive send =>
    send (other_message "websocket.accept" VNone) ;;
    raise (RuntimeError "socket handler failed").

(** The security-headers wrapper as [create_app] builds it outside
    production. *)
Definition default_security_headers (app : ASGIApp)
    : SecurityHeadersMiddleware.t :=
  SecurityHeadersMiddleware.__init__ app
    SecurityHeadersMiddleware.default_content_security_policy "" None.

(** [custom_headers={"X-Frame-Options": "SAMEORIGIN", "Cache-Control": ""}] *)
Definition sample_custom_headers : PyDict.t string :=
  [("X-Frame-Options", "SAMEORIGIN"); ("Cache-Control", "")].

(** Three conditions: one passes, one times out, one raises. *)
Definition db_online : HealthCondition :=
  mkCondition "_is_db_online" (ret true).
Definition cache_online : HealthCondition :=
  mkCondition "_is_cache_online" (raise TimeoutError).
Definition queue_online : HealthCondition :=
  mkCondition "_is_queue_online"
    (raise (PyException "ConnectionRefusedError" "connection refused")).

(** ** Applications given by what they send *)

Definition with_clock (c : Z) (w : World) : World :=
  mkWorld (contextvars w) (log w) c (cells w) (wire w).

(** [await send(m)] for each message of a list, in order. *)
Fixpoint send_all (send : Send) (messages : list Message) : M World unit :=
  match messages with
  | [] => ret tt
  | message :: messages' => send message ;; send_all send messages'
  end.

(** An application that hands [messages] to its send channel, takes
    [elapsed] clock ticks, and then returns or raises. *)
Definition scripted_app (messages : list Message) (elapsed : Z)
    (outcome : result unit) : ASGIApp :=
  fun scope receive send =>
    send_all send messages ;;
    modify (fun w => with_clock (clock w + elapsed) w) ;;
    lift_result outcome.

(** The status of the last response-start message of a list, [default]
    when there is none. *)
Definition last_status (default : Z) (messages : list Message) : Z :=
  fold_left
    (fun status message =>
       match message with
       | http_response_start s _ => s
       | _ => status
       end)
    messages default.

(** The access-log record of a request. *)
Definition request_record (scope : Scope) (status duration : Z) : LogRecord :=
  mkLogRecord "info" "request"
    [("method", VStr (scope_method scope));
     ("path", VStr (scope_path scope));
     ("status_code", VInt status);
     ("duration_ms", VInt duration);
     ("client_ip", VStr (_client_ip scope))]
    None
    [("request_id", VStr (_extract_header scope "x-request-id"))].

(** The messages of a 200 response with a JSON body. *)
Definition ok_messages (content : pyval) : list Message :=
  response_messages (JSONResponse.mk 200 content).

(** A logger that fails on access-log records only. *)
Definition access_log_broken_logger : Logger :=
  mkLogger (fun r =>
    if String.eqb (event r) "request"
    then Some (PyException "OSError" "log sink is closed")
    else None).

(** ** Counting the sessions opened and closed *)

Definition is_session_open (c : db_call) : bool :=
  match c with session_open _ => true | _ => false end.

Definition is_session_close (c : db_call) : bool :=
  match c with session_close _ => true | _ => false end.

Definition count_calls (p : db_call -> bool) (cs : list db_call) : nat :=
  length (filter p cs).

(** A block that uses its session without opening or closing sessions
    itself: whatever it returns or raises, it only adds calls, none of them
    a [session_open] or a [session_close]. *)
Definition leaves_lifecycle_alone (body : AsyncSession -> M Database unit)
    : Prop :=
  forall s d,
    exists extra,
      calls (snd (body s d)) = calls d ++ extra /\
      count_calls is_session_open extra = 0%nat /\
      count_calls is_session_close extra = 0%nat.

(** The keyword arguments [init] gives the engine. *)
Definition init_engine_kwargs (pool_size max_overflow : Z)
    (pool_pre_ping echo : bool) (pool_class : option string)
    : PyDict.t pyval :=
  match pool_class with
  | Some c =>
      [("pool_pre_ping", VBool pool_pre_ping); ("echo", VBool echo);
       ("poolclass", VStr c)]
  | None =>
      [("pool_pre_ping", VBool pool_pre_ping); ("echo", VBool echo);
       ("pool_size", VInt pool_size); ("max_overflow", VInt max_overflow)]
  end.

(** A driver on which disposing an engine fails. *)
Definition failing_dispose_driver : Driver :=
  mkDriver (fun c =>
    match c with
    | engine_dispose _ => Some (PyException "OSError" "connection reset")
    | _ => None
    end).

(** A block that runs a statement and fails. *)
Definition failing_statement : AsyncSession -> M Database unit :=
  fun _ => raise (PyException "ProgrammingError" "relation does not exist").

(** ** Conditions with a fixed outcome *)

(** A condition that leaves the process state alone and returns, raises or
    times out as [outcome] says. *)
Definition fixed_condition (check : string * result bool) : HealthCondition :=
  mkCondition (fst check) (lift_result (snd check)).

(** What the readiness loop logs for the outcome of one check, under the
    logging context [ctx]. *)
Definition check_log (check_timeout : Z) (ctx : PyDict.t pyval)
    (check : string * result bool) : list LogRecord :=
  match snd check with
  | Ok _ => []
  | Raise e =>
      if is_TimeoutError e
      then [mkLogRecord "warning" "readiness_check_timeout"
              [("check", VStr (fst check)); ("timeout", VInt check_timeout)]
              None ctx]
      else [mkLogRecord "error" "readiness_check_failed"
              [("check", VStr (fst check))] (Some e) ctx]
  end.

(** ** app/resilience/retry.py *)

(** [isinstance(e, TransientError)], on the class itself. *)
Definition is_TransientError (e : exc) : bool :=
  match e with
  | PyException n _ => String.eqb n "TransientError"
  | _ => false
  end.

Module Retrying.
(** The retry policy [retry_on_transient] configures: the arguments of
    [tenacity.retry]; times are in clock ticks. *)
Record t : Type := mk {
  max_attempts : Z;           (* stop_after_attempt *)
  max_delay_seconds : Z;      (* stop_after_delay *)
  wait_multiplier : Z;        (* wait_random_exponential(multiplier=...) *)
  wait_max : Z;               (* wait_random_exponential(max=...) *)
  retry_on : exc -> bool;     (* retry_if_exception_type: isinstance *)
  tenacity_kwargs : PyDict.t pyval
}.

(** What the retried call leaves besides its outcome: the number of the
    last attempt and the time spent sleeping between attempts. *)
Record state (A : Type) : Type := mkState {
  outcome : result A;
  attempt_number : Z;
  idle_for : Z
}.
End Retrying.

(** The keywords [retry_on_transient] passes to [tenacity.retry] itself. *)
Definition retry_keywords : list string :=
  ["wait"; "stop"; "retry"; "before_sleep"; "reraise"].

(** [retry_on_transient(...)]: the call [retry(wait=..., stop=..., retry=...,
    before_sleep=..., reraise=True, **tenacity_kwargs)]. *)
Definition retry_on_transient (max_attempts max_delay_seconds : Z)
    (wait_multiplier wait_max : Z) (retry_on : exc -> bool)
    (tenacity_kwargs : PyDict.t pyval) : result Retrying.t :=
  match find (fun k => str_mem k retry_keywords)
             (PyDict.keys tenacity_kwargs) with
  | Some k =>
      Raise (TypeError
               ("got multiple values for keyword argument '" ++ k ++ "'")%string)
  | None =>
      Ok (Retrying.mk max_attempts max_delay_seconds wait_multiplier wait_max
            retry_on tenacity_kwargs)
  end.

(** [retry_on_transient()] with the defaults of the signature, one second
    being [second] ticks. *)
Definition retry_on_transient_defaults (second : Z) : result Retrying.t :=
  retry_on_transient 3 (60 * second) (1 * second) (10 * second)
    is_TransientError [].

Section Tenacity.
Variable A : Type.
Variable self : Retrying.t.
(** [random.uniform(0, high)] as drawn before the sleep that follows
    attempt [n]. *)
Variable random_uniform : Z -> Z -> Z.
Variable fn : M World A.

(** The upper end of the wait after attempt [n]:
    [max(0, min(multiplier * 2 ** (n - 1), max))]. *)
Definition wait_high (attempt_number : Z) : Z :=
  Z.max 0
    (Z.min (Retrying.wait_multiplier self * 2 ^ (attempt_number - 1))
       (Retrying.wait_max self)).

(** [stop_after_attempt(max_attempts) | stop_after_delay(max_delay_seconds)] *)
Definition should_stop (attempt_number seconds_since_start : Z) : bool :=
  orb (Retrying.max_attempts self <=? attempt_number)
      (Retrying.max_delay_seconds self <=? seconds_since_start).

(** [before_sleep_log(logger, logging.WARNING)] *)
Definition before_sleep_record (attempt_number sleep : Z) (e : exc)
    (w : World) : LogRecord :=
  mkLogRecord "warning" "Retrying"
    [("attempt", VInt attempt_number); ("sleep", VInt sleep)]
    (Some e) (contextvars w).

(** The loop of [tenacity] for this policy, without pass-through keywords:
    call; return a result; re-raise an exception that is not retried, or a
    retried one once a limit is reached ([reraise=True]); otherwise log,
    sleep and call again.  [fuel] is the number of further attempts
    [stop_after_attempt] can allow. *)
Fixpoint retry_loop (fuel : nat) (attempt_number idle_for start_time : Z)
    (w : World) : Retrying.state A * World :=
  match fn w with
  | (Ok a, w1) => (Retrying.mkState (Ok a) attempt_number idle_for, w1)
  | (Raise e, w1) =>
      if negb (Retrying.retry_on self e)
      then (Retrying.mkState (Raise e) attempt_number idle_for, w1)
      else if should_stop attempt_number (clock w1 - start_time)
      then (Retrying.mkState (Raise e) attempt_number idle_for, w1)
      else
        match fuel with
        | O => (Retrying.mkState (Raise e) attempt_number idle_for, w1)
        | Datatypes.S fuel' =>
            let sleep := random_uniform attempt_number (wait_high attempt_number) in
            let w2 :=
              with_log
                (log w1 ++ [before_sleep_record attempt_number sleep e w1]) w1 in
            let w3 := with_clock (clock w2 + sleep) w2 in
            retry_loop fuel' (attempt_number + 1) (idle_for + sleep)
              start_time w3
        end
  end.

(** The decorated function. *)
Definition retrying (w : World) : Retrying.state A * World :=
  retry_loop (Z.to_nat (Retrying.max_attempts self - 1)) 1 0 (clock w) w.

End Tenacity.

(** An operation that fails with a transient error until the clock has
    reached [ready], and returns ["ok"] from then on. *)
Definition ok_after (ready : Z) : M World string :=
  fun w =>
    if ready <=? clock w then (Ok "ok", w)
    else (Raise (PyException "TransientError" "transient"), w).

Definition three_attempts : Retrying.t :=
  Retrying.mk 3 60000 1000 10000 is_TransientError [].

(** A draw that always takes the upper end. *)
Definition full_wait : Z -> Z -> Z := fun _ high => high.

(** ** app/cli/main.py *)

Definition EXIT_SUCCESS : Z := 0.
Definition EXIT_APP_ERROR : Z := 1.
Definition EXIT_INFRA_ERROR : Z := 2.

(** The process of a CLI command: the module-level session manager with the
    database side, the logging side, and what was echoed to standard error
    (a prefix and the exception formatted after it). *)
Record Process : Type := mkProcess {
  session_manager : DatabaseSessionManager.State;
  process_world : World;
  stderr : list (string * exc)
}.

Definition on_manager {A} (m : M DatabaseSessionManager.State A)
    : M Process A :=
  fun p =>
    match m (session_manager p) with
    | (r, st) => (r, mkProcess st (process_world p) (stderr p))
    end.

Definition on_world {A} (m : M World A) : M Process A :=
  fun p =>
    match m (process_world p) with
    | (r, w) => (r, mkProcess (session_manager p) w (stderr p))
    end.

(** How a command ends: it returns, or it raises [SystemExit] with an exit
    code, or an exception leaves it. *)
Inductive command_end : Type :=
| returned
| SystemExit (code : Z)
| uncaught (e : exc).

(** The coroutine [_check] of [db_check]; [select_1] is the statement run
    on the session. *)
Definition _check (driver : Driver) (logger : Logger) (url : string)
    (select_1 : AsyncSession -> M Database unit) : M Process unit :=
  on_manager (DatabaseSessionManager.init driver url 5 10 true false None) ;;
  try_finally
    (on_manager (DatabaseSessionManager.session driver select_1) ;;
     on_world (logger_info logger "db_check_ok" []))
    (on_manager (DatabaseSessionManager.close driver)).

Definition db_check (driver : Driver) (logger : Logger) (url : string)
    (select_1 : AsyncSession -> M Database unit) (p : Process)
    : command_end * Process :=
  match _check driver logger url select_1 p with
  | (Ok _, p') => (returned, p')
  | (Raise exc, p') =>
      match on_world (logger_exception logger "db_check_failed" [] exc) p' with
      | (Raise e, p'') => (uncaught e, p'')
      | (Ok _, p'') =>
          (SystemExit EXIT_INFRA_ERROR,
           mkProcess (session_manager p'') (process_world p'')
             (stderr p'' ++ [("Database check failed: ", exc)]))
      end
  end.

Definition new_process : Process := mkProcess new_manager new_world [].

(** ** Names that meet *)

(** Two conditions that two modules both call [check]: the first cannot
    reach its service, the second passes. *)
Definition database_check : HealthCondition :=
  mkCondition "check"
    (raise (PyException "ConnectionRefusedError" "connection refused")).
Definition cache_check : HealthCondition :=
  mkCondition "check" (ret true).

(** The names of the headers the wrapper can hold before the custom
    headers are applied. *)
Definition security_header_names : list string :=
  PyDict.keys _DEFAULT_HEADERS
  ++ ["Content-Security-Policy"; "Strict-Transport-Security"].

(** [SecurityHeadersMiddleware(app, strict_transport_security="",
    custom_headers=custom)] *)
Definition security_headers_with (custom : PyDict.t string)
    : SecurityHeadersMiddleware.t :=
  SecurityHeadersMiddleware.__init__ (json_route VNone)
    SecurityHeadersMiddleware.default_content_security_policy ""
    (Some custom).

(** [ConflictError("Email already registered", event="signup")] *)
Definition conflict_with_event : DomainError.t :=
  DomainError.__init__ DomainError.ConflictError
    (Some "Email already registered") None [("event", VStr "signup")].

(* ================================================================== *)
(** * Part II. Properties                                               *)
(* ================================================================== *)

Ltac unfold_monad :=
  unfold bind, ret, raise, try_except, try_finally, modify, get_state,
    lift_result in *.

(** ** Dictionaries *)

Section PyDictFacts.
Variable V : Type.
Implicit Types (d : PyDict.t V) (k : string) (v : V).

Lemma get_set_same d k v : PyDict.get k (PyDict.set k v d) = Some v.
Proof.
  induction d as [|[k' v'] d IH]; simpl.
  - now rewrite String.eqb_refl.
  - destruct (String.eqb k k') eqn:E; simpl; rewrite E; auto.
Qed.

Lemma get_set_other d k k' v :
  k <> k' -> PyDict.get k' (PyDict.set k v d) = PyDict.get k' d.
Proof.
  intros Hne. induction d as [|[k0 v0] d IH]; simpl.
  - destruct (String.eqb k' k) eqn:E; auto.
    apply String.eqb_eq in E. congruence.
  - destruct (String.eqb k k0) eqn:E; simpl.
    + apply String.eqb_eq in E. subst k0.
      destruct (String.eqb k' k) eqn:E'; auto.
      apply String.eqb_eq in E'. congruence.
    + now rewrite IH.
Qed.

Lemma get_pop_same d k : PyDict.get k (PyDict.pop k d) = None.
Proof.
  induction d as [|[k' v'] d IH]; simpl; auto.
  destruct (String.eqb k k') eqn:E; simpl; auto. now rewrite E.
Qed.

Lemma get_pop_other d k k' :
  k <> k' -> PyDict.get k' (PyDict.pop k d) = PyDict.get k' d.
Proof.
  intros Hne. induction d as [|[k0 v0] d IH]; simpl; auto.
  destruct (String.eqb k k0) eqn:E; simpl.
  - apply String.eqb_eq in E. subst k0.
    destruct (String.eqb k' k) eqn:E'; auto.
    apply String.eqb_eq in E'. congruence.
  - now rewrite IH.
Qed.

Lemma get_None_not_key d k :
  PyDict.get k d = None <-> ~ In k (PyDict.keys d).
Proof.
  induction d as [|[k' v'] d IH]; simpl.
  - tauto.
  - destruct (String.eqb k k') eqn:E.
    + apply String.eqb_eq in E. subst. split; [discriminate | tauto].
    + apply String.eqb_neq in E. rewrite IH. split.
      * intros H [H'|H']; [congruence | tauto].
      * tauto.
Qed.

Lemma get_Some_In d k v : PyDict.get k d = Some v -> In (k, v) d.
Proof.
  induction d as [|[k' v'] d IH]; simpl; [discriminate|].
  destruct (String.eqb k k') eqn:E.
  - apply String.eqb_eq in E. intros [= ->]. subst. now left.
  - auto.
Qed.

Lemma keys_set d k v :
  forall k', In k' (PyDict.keys (PyDict.set k v d)) <->
             k' = k \/ In k' (PyDict.keys d).
Proof.
  intros k'. induction d as [|[k0 v0] d IH]; simpl.
  - intuition.
  - destruct (String.eqb k k0) eqn:E; simpl.
    + apply String.eqb_eq in E. subst. intuition.
    + rewrite IH. intuition.
Qed.

Lemma keys_pop d k :
  PyDict.keys (PyDict.pop k d)
  = filter (fun k' => negb (String.eqb k k')) (PyDict.keys d).
Proof.
  induction d as [|[k0 v0] d IH]; simpl; auto.
  destruct (String.eqb k k0); simpl; now rewrite IH.
Qed.

Lemma keys_pop_incl d k k' :
  In k' (PyDict.keys (PyDict.pop k d)) -> In k' (PyDict.keys d).
Proof. rewrite keys_pop, filter_In. tauto. Qed.

Lemma wf_pop d k : PyDict.wf d -> PyDict.wf (PyDict.pop k d).
Proof. unfold PyDict.wf. rewrite keys_pop. apply NoDup_filter. Qed.

Lemma wf_set d k v : PyDict.wf d -> PyDict.wf (PyDict.set k v d).
Proof.
  unfold PyDict.wf. induction d as [|[k0 v0] d IH]; simpl; intros Hwf.
  - constructor; [tauto | constructor].
  - inversion Hwf as [|? ? Hnotin Hwf']; subst.
    destruct (String.eqb k k0) eqn:E; simpl.
    + now constructor.
    + constructor; [|now apply IH].
      intros Hin. apply keys_set in Hin. destruct Hin as [-> | Hin].
      * rewrite String.eqb_refl in E. discriminate.
      * contradiction.
Qed.

Lemma In_get d k v : PyDict.wf d -> In (k, v) d -> PyDict.get k d = Some v.
Proof.
  unfold PyDict.wf. induction d as [|[k0 v0] d IH]; simpl; intros Hwf Hin.
  - contradiction.
  - inversion Hwf as [|? ? Hnotin Hwf']; subst.
    destruct Hin as [[= -> ->] | Hin].
    + now rewrite String.eqb_refl.
    + destruct (String.eqb k k0) eqn:E; [|now apply IH].
      apply String.eqb_eq in E. subst k0. exfalso. apply Hnotin.
      change k with (fst (k, v)). now apply in_map.
Qed.

End PyDictFacts.

(** ** The monad *)

Lemma lift_db_self A (m : M Database A) st :
  DatabaseSessionManager.self (snd (DatabaseSessionManager.lift_db m st))
  = DatabaseSessionManager.self st.
Proof.
  unfold DatabaseSessionManager.lift_db.
  destruct (m (DatabaseSessionManager.database st)); reflexivity.
Qed.

(** ** Scoped sessions *)

Import DatabaseSessionManager.

(** The generator's work around the block, for every driver and every
    block: which calls it adds after the block, and what the scope yields. *)
Lemma session_scope_calls A driver (s : AsyncSession)
    (body : AsyncSession -> M Database A) d rb db :
  body s d = (rb, db) ->
  let i := session_id s in
  exists r d',
    session_scope driver s body d = (r, d') /\
    next_id d' = next_id db /\
    match rb with
    | Ok a =>
        match fault driver (session_commit i) with
        | None =>
            calls d' = calls db ++ [session_commit i; session_close i] /\
            r = unless_raises driver (session_close i) (Ok a)
        | Some ec =>
            calls d' = calls db ++
              [session_commit i; session_rollback i; session_close i] /\
            r = unless_raises driver (session_close i)
                  (unless_raises driver (session_rollback i) (Raise ec))
        end
    | Raise e =>
        calls d' = calls db ++ [session_rollback i; session_close i] /\
        r = unless_raises driver (session_close i)
              (unless_raises driver (session_rollback i) (Raise e))
    end.
Proof.
  intros Hbody i.
  unfold session_scope, AsyncSession_commit, AsyncSession_rollback,
    AsyncSession_close, driver_call, unless_raises.
  unfold_monad. rewrite Hbody. fold i.
  destruct rb as [a|e]; simpl.
  - destruct (fault driver (session_commit i)) as [ec|]; simpl.
    + destruct (fault driver (session_rollback i)) as [er|]; simpl;
        destruct (fault driver (session_close i)) as [el|]; simpl;
        eexists; eexists; (split; [reflexivity|]); simpl;
        rewrite <- ?app_assoc; simpl; auto.
    + destruct (fault driver (session_close i)) as [el|]; simpl;
        eexists; eexists; (split; [reflexivity|]); simpl;
        rewrite <- ?app_assoc; simpl; auto.
  - destruct (fault driver (session_rollback i)) as [er|]; simpl;
      destruct (fault driver (session_close i)) as [el|]; simpl;
      eexists; eexists; (split; [reflexivity|]); simpl;
      rewrite <- ?app_assoc; simpl; auto.
Qed.




(** ** The manager's life cycle *)

Lemma check_init_uninitialized st :
  _engine (self st) = None \/ _sessionmaker (self st) = None ->
  _check_init st = (Raise not_initialized, st).
Proof.
  unfold _check_init, get_self. unfold_monad.
  intros [H|H]; rewrite H; simpl; auto.
  destruct (_engine (self st)); reflexivity.
Qed.

Lemma check_init_initialized st e maker :
  _engine (self st) = Some e -> _sessionmaker (self st) = Some maker ->
  _check_init st = (Ok tt, st).
Proof.
  unfold _check_init, get_self. unfold_monad.
  intros -> ->. reflexivity.
Qed.

Lemma session_uninitialized A driver (body : AsyncSession -> M Database A) st :
  _engine (self st) = None \/ _sessionmaker (self st) = None ->
  session driver body st = (Raise not_initialized, st).
Proof.
  intros H. unfold session, bind.
  now rewrite (check_init_uninitialized st H).
Qed.

Lemma connect_uninitialized A driver (body : AsyncConnection -> M Database A) st :
  _engine (self st) = None \/ _sessionmaker (self st) = None ->
  connect driver body st = (Raise not_initialized, st).
Proof.
  intros H. unfold connect, bind.
  now rewrite (check_init_uninitialized st H).
Qed.

Lemma session_keeps_manager A driver (body : AsyncSession -> M Database A) st :
  self (snd (session driver body st)) = self st.
Proof.
  unfold session, _check_init, get_self. unfold_monad.
  destruct (orb _ _); simpl; auto.
  destruct (_sessionmaker (self st)); simpl; auto.
  apply lift_db_self.
Qed.

Lemma connect_keeps_manager A driver (body : AsyncConnection -> M Database A) st :
  self (snd (connect driver body st)) = self st.
Proof.
  unfold connect, _check_init, get_self. unfold_monad.
  destruct (orb _ _); simpl; auto.
  destruct (_engine (self st)); simpl; auto.
  apply lift_db_self.
Qed.

(** [init] either returns with a new engine and a factory bound to it, or
    raises (the engine could not be created) and leaves the manager alone. *)
Lemma init_outcome driver url ps mo pp echo pc st :
  let out := init driver url ps mo pp echo pc st in
  match fst out with
  | Ok _ =>
      exists e,
        self (snd out) = mk (Some e) (Some (mkSessionmaker (Some e) false)) /\
        engine_id e = next_id (database st) /\ engine_url e = url
  | Raise _ => self (snd out) = self st
  end.
Proof.
  unfold init, create_async_engine, fresh_id, driver_call, lift_db,
    set_engine, set_sessionmaker, get_self.
  unfold_monad. simpl.
  destruct (fault driver _); simpl; eauto.
Qed.

(** [close] either returns with the engine cleared (and the factory, when
    there was an engine), or raises (dispose failed) and leaves the manager
    alone. *)
Lemma close_outcome driver st :
  let out := close driver st in
  match fst out with
  | Ok _ =>
      _engine (self (snd out)) = None /\
      (_engine (self st) <> None -> self (snd out) = __init__) /\
      (_engine (self st) = None -> snd out = st)
  | Raise _ => self (snd out) = self st
  end.
Proof.
  unfold close, AsyncEngine_dispose, driver_call, lift_db, set_engine,
    set_sessionmaker, get_self.
  unfold_monad. simpl.
  destruct (_engine (self st)) as [e|] eqn:E; simpl.
  - destruct (fault driver _); simpl; auto.
    repeat split; auto. congruence.
  - repeat split; auto. congruence.
Qed.

Lemma paired_new : paired __init__.
Proof. exact I. Qed.

Lemma paired_None_iff m :
  paired m -> (_engine m = None <-> _sessionmaker m = None).
Proof.
  unfold paired. destruct (_engine m), (_sessionmaker m); intuition congruence.
Qed.

Lemma exec_keeps_paired driver c st :
  paired (self st) -> paired (self (snd (exec driver c st))).
Proof.
  intros Hp. destruct c as [url ps mo pp echo pc| |body|body]; simpl.
  - pose proof (init_outcome driver url ps mo pp echo pc st) as H.
    simpl in H. destruct (fst (init _ _ _ _ _ _ _ _)).
    + destruct H as (e & -> & _). reflexivity.
    + now rewrite H.
  - pose proof (close_outcome driver st) as H. simpl in H.
    destruct (fst (close driver st)).
    + destruct H as (_ & Hsome & Hnone).
      destruct (_engine (self st)) eqn:E.
      * rewrite Hsome by discriminate. exact I.
      * now rewrite Hnone.
    + now rewrite H.
  - now rewrite session_keeps_manager.
  - now rewrite connect_keeps_manager.
Qed.

Lemma reachable_paired driver st : reachable driver st -> paired (self st).
Proof.
  induction 1 as [d | st c _ IH].
  - exact I.
  - now apply exec_keeps_paired.
Qed.

(** C10.  Every state a manager reaches holds its engine and its session
    factory together or not at all (the engine is [None] exactly when the
    factory is, and a factory is bound to the engine held).  A new manager
    holds neither; [init], when it returns, holds a freshly created engine
    and a factory bound to it, whatever was held before; [close], when it
    returns, holds neither; [session()] and [connect()] change neither; a call
    that raises leaves the pair as it was. *)
Theorem manager_engine_factory_paired driver st c :
  reachable driver st ->
  let out := exec driver c st in
  __init__ = mk None None /\
  paired (self st) /\
  (_engine (self st) = None <-> _sessionmaker (self st) = None) /\
  paired (self (snd out)) /\
  match c with
  | call_init url _ _ _ _ _ =>
      match fst out with
      | Ok _ =>
          exists e,
            self (snd out) = mk (Some e) (Some (mkSessionmaker (Some e) false)) /\
            engine_id e = next_id (database st) /\ engine_url e = url
      | Raise _ => self (snd out) = self st
      end
  | call_close =>
      match fst out with
      | Ok _ => self (snd out) = __init__
      | Raise _ => self (snd out) = self st
      end
  | call_session _ | call_connect _ => self (snd out) = self st
  end.
Proof.
  intros Hr out. pose proof (reachable_paired Hr) as Hp.
  split; [reflexivity|]. split; [exact Hp|].
  split; [now apply paired_None_iff|].
  split; [now apply exec_keeps_paired|].
  destruct c as [url ps mo pp echo pc| |body|body]; subst out; simpl.
  - apply init_outcome.
  - pose proof (close_outcome driver st) as H. simpl in H.
    destruct (fst (close driver st)); auto.
    destruct H as (Hnone & Hsome & Hsame).
    destruct (_engine (self st)) eqn:E.
    + apply Hsome. discriminate.
    + rewrite Hsame by reflexivity.
      apply paired_None_iff in Hp. destruct (self st) as [e m]. simpl in *.
      subst e. destruct Hp as [Hm _]. now rewrite Hm.
  - apply session_keeps_manager.
  - apply connect_keeps_manager.
Qed.

Lemma manager_engine_factory_paired_witness :
  paired (self (snd (exec reliable_driver call_close
                       (snd (exec reliable_driver
                               (call_init sample_url 5 10 true false None)
                               new_manager))))).
Proof.
  refine (proj1 (proj2 (proj2 (proj2
    (@manager_engine_factory_paired reliable_driver _ call_close _))))).
  apply reachable_call. apply reachable_new.
Defined.

Lemma exec_non_init_keeps_new driver c st :
  is_init c = false -> self st = __init__ ->
  self (snd (exec driver c st)) = __init__.
Proof.
  intros Hc Hs. destruct c as [url ps mo pp echo pc| |body|body];
    simpl in *; try discriminate.
  - pose proof (close_outcome driver st) as H. simpl in H.
    destruct (fst (close driver st)).
    + destruct H as (_ & _ & Hsame). rewrite Hsame; auto. now rewrite Hs.
    + congruence.
  - now rewrite session_keeps_manager.
  - now rewrite connect_keeps_manager.
Qed.

Lemma run_without_init_keeps_new driver cs :
  forallb (fun c => negb (is_init c)) cs = true ->
  forall st, self st = __init__ -> self (run driver cs st) = __init__.
Proof.
  induction cs as [|c cs IH]; simpl; intros Hcs st Hs; auto.
  apply andb_prop in Hcs. destruct Hcs as [Hc Hcs].
  apply IH; auto. apply exec_non_init_keeps_new; auto.
  now destruct (is_init c).
Qed.

(** C6.  Entering [session()] or [connect()] raises the not-initialized
    error on every manager outside the initialized state: on a manager on
    which [init] was never called (whatever else was called on it), and on a
    manager on which [close] has returned, after an [init] or not.  After an
    [init] that returned, the check passes and both go on to open their
    session or connection. *)
Theorem acquire_requires_init driver :
  (forall A B cs d (body : AsyncSession -> M Database A)
          (body' : AsyncConnection -> M Database B),
      forallb (fun c => negb (is_init c)) cs = true ->
      let st := run driver cs (mkState __init__ d) in
      session driver body st = (Raise not_initialized, st) /\
      connect driver body' st = (Raise not_initialized, st)) /\
  (forall A B st st' (body : AsyncSession -> M Database A)
          (body' : AsyncConnection -> M Database B),
      close driver st = (Ok tt, st') ->
      session driver body st' = (Raise not_initialized, st') /\
      connect driver body' st' = (Raise not_initialized, st')) /\
  (forall A B st st' url ps mo pp echo pc
          (body : AsyncSession -> M Database A)
          (body' : AsyncConnection -> M Database B),
      init driver url ps mo pp echo pc st = (Ok tt, st') ->
      exists e,
        _engine (self st') = Some e /\
        _check_init st' = (Ok tt, st') /\
        session driver body st' =
          lift_db (s <- sessionmaker_call driver (mkSessionmaker (Some e) false) ;;
                   session_scope driver s body) st' /\
        connect driver body' st' = lift_db (AsyncEngine_begin driver e body') st').
Proof.
  repeat split.
  - apply session_uninitialized. left.
    rewrite run_without_init_keeps_new; auto.
  - apply connect_uninitialized. left.
    rewrite run_without_init_keeps_new; auto.
  - apply session_uninitialized. left.
    pose proof (close_outcome driver st) as Hc. simpl in Hc.
    rewrite H in Hc. simpl in Hc. tauto.
  - apply connect_uninitialized. left.
    pose proof (close_outcome driver st) as Hc. simpl in Hc.
    rewrite H in Hc. simpl in Hc. tauto.
  - intros A B st st' url ps mo pp echo pc body body' Hi.
    pose proof (init_outcome driver url ps mo pp echo pc st) as Ho.
    simpl in Ho. rewrite Hi in Ho. simpl in Ho.
    destruct Ho as (e & Hself & _). exists e.
    assert (He : _engine (self st') = Some e) by now rewrite Hself.
    assert (Hm : _sessionmaker (self st') = Some (mkSessionmaker (Some e) false))
      by now rewrite Hself.
    pose proof (check_init_initialized st' He Hm) as Hck.
    repeat split; auto.
    + unfold session, bind at 1 2. rewrite Hck.
      unfold get_self. now rewrite Hm.
    + unfold connect, bind at 1 2. rewrite Hck.
      unfold get_self. now rewrite He.
Qed.

Lemma acquire_requires_init_witness :
  session reliable_driver (fun _ => ret tt)
    (snd (close reliable_driver (ready_manager reliable_driver)))
  = (Raise not_initialized,
     snd (close reliable_driver (ready_manager reliable_driver))).
Proof.
  refine (proj1 (proj1 (proj2 (@acquire_requires_init reliable_driver))
                   unit unit (ready_manager reliable_driver)
                   _ (fun _ => ret tt) (fun _ => ret tt) _)).
  vm_compute. reflexivity.
Defined.

(** ** The error response pipeline *)

Lemma Headers_get_first_header scope :
  Headers_get (scope_headers scope) "x-request-id" ""
  = first_header scope "x-request-id".
Proof.
  unfold first_header.
  induction (scope_headers scope) as [|[n v] l IH]; [reflexivity|].
  cbn [Headers_get find fst snd].
  change (lower "x-request-id") with "x-request-id" in *.
  destruct (String.eqb n "x-request-id"); [reflexivity | exact IH].
Qed.

Lemma first_header_absent scope name :
  ~ In name (map fst (scope_headers scope)) -> first_header scope name = "".
Proof.
  unfold first_header. induction (scope_headers scope) as [|[n v] l IH]; simpl; auto.
  intros H. destruct (String.eqb n name) eqn:E.
  - apply String.eqb_eq in E. tauto.
  - apply IH. tauto.
Qed.

Lemma JSONResponse_on_the_wire response scope receive w :
  JSONResponse.__call__ response scope receive wire_send w
  = (Ok tt, with_wire (wire w ++ response_messages response) w).
Proof.
  unfold JSONResponse.__call__, wire_send, response_messages, with_wire.
  unfold_monad. simpl. now rewrite <- app_assoc.
Qed.

Lemma catch_all_after_raise logger app scope receive send w e w1 :
  is_http scope = true ->
  app scope receive send w = (Raise e, w1) ->
  UnhandledExceptionMiddleware.__call__ logger app scope receive send w
  = JSONResponse.__call__ (internal_server_error scope) scope receive send
      (after_logging_attempt logger (unhandled_error_record scope e w1) w1).
Proof.
  intros Hhttp Happ.
  unfold UnhandledExceptionMiddleware.__call__. rewrite Hhttp. simpl.
  unfold try_except at 1. rewrite Happ.
  unfold request_headers_get. simpl. rewrite Headers_get_first_header.
  unfold logger_exception, logger_log, bind, try_except, ret,
    after_logging_attempt.
  fold (unhandled_error_record scope e w1).
  destruct (log_fault logger _); reflexivity.
Qed.

Lemma unclassified_not_handled logger app scope receive send w name message w1 :
  app scope receive send w = (Raise (PyException name message), w1) ->
  ExceptionMiddleware logger app scope receive send w
  = (Raise (PyException name message), w1).
Proof.
  intros Happ. unfold ExceptionMiddleware.
  destruct (negb _); [exact Happ|].
  unfold try_except. now rewrite Happ.
Qed.

(** C3.  For every exception [e] that reaches the catch-all middleware
    while an HTTP request is handled, in particular every exception raised
    below the typed handlers that has no handler of its own: the middleware
    answers with the response [internal_server_error scope], status 500,
    detail "Internal server error", and as request_id the value of the
    inbound x-request-id header (the empty string when there is none).  It
    does so whether the logging of the exception writes its record or raises
    (then nothing is logged and the response is the same), and the response
    is the same for every [e]: it is built from the scope alone, so neither
    the type name nor the message of the exception is in it. *)
Theorem unhandled_exception_gives_500 logger app scope receive send w e w1 :
  is_http scope = true ->
  app scope receive send w = (Raise e, w1) ->
  let w2 :=
    after_logging_attempt logger (unhandled_error_record scope e w1) w1 in
  UnhandledExceptionMiddleware.__call__ logger app scope receive send w
    = JSONResponse.__call__ (internal_server_error scope) scope receive send w2 /\
  JSONResponse.__call__ (internal_server_error scope) scope receive wire_send w2
    = (Ok tt,
       with_wire
         (wire w2 ++
            [http_response_start 500 (Some JSONResponse.init_headers);
             http_response_body
               (VDict [("detail", VStr "Internal server error");
                       ("status_code", VInt 500);
                       ("request_id", VStr (first_header scope "x-request-id"))])])
         w2) /\
  (~ In "x-request-id" (map fst (scope_headers scope)) ->
   first_header scope "x-request-id" = "") /\
  (forall name message,
      e = PyException name message ->
      register_exception_handlers logger app scope receive send w
      = JSONResponse.__call__ (internal_server_error scope) scope receive send w2).
Proof.
  intros Hhttp Happ w2.
  split; [now apply catch_all_after_raise|].
  split; [apply JSONResponse_on_the_wire|].
  split; [apply first_header_absent|].
  intros name message He. subst w2.
  unfold register_exception_handlers.
  apply catch_all_after_raise; [exact Hhttp|].
  rewrite He in *. now apply unclassified_not_handled.
Qed.

Lemma unhandled_exception_gives_500_witness :
  UnhandledExceptionMiddleware.__call__ broken_logger
    (raising_route (RuntimeError "unexpected failure"))
    (get_request "/raise-unhandled" []) no_receive wire_send new_world
  = (Ok tt,
     with_wire
       [http_response_start 500 (Some JSONResponse.init_headers);
        http_response_body
          (VDict [("detail", VStr "Internal server error");
                  ("status_code", VInt 500);
                  ("request_id", VStr "")])]
       new_world).
Proof.
  rewrite (proj1 (@unhandled_exception_gives_500 broken_logger
                    (raising_route (RuntimeError "unexpected failure"))
                    (get_request "/raise-unhandled" []) no_receive wire_send
                    new_world (RuntimeError "unexpected failure") new_world
                    eq_refl eq_refl)).
  reflexivity.
Defined.

(** The test of the suite: neither the message, nor the type name, nor a
    traceback marker is in the detail of the 500 body. *)
Example unhandled_detail_hides_the_exception :
  let detail := "Internal server error" in
  contains "unexpected failure" detail = false /\
  contains "RuntimeError" detail = false /\
  contains "Traceback" detail = false.
Proof. vm_compute. auto. Qed.

(** C7.  For every request-shape validation failure raised below the typed
    handlers of an HTTP request, with a logger that writes its records: the
    handler returns, and the middleware sends, the response
    [validation_failed scope], status 422, detail "Request validation
    failed", request_id from the inbound x-request-id header.  The
    per-field errors go into one warning record of the log; the response is
    the same whatever they are, so they are not in the body. *)
Theorem validation_failure_gives_422 logger app scope receive send w errors w1 :
  logger_works logger ->
  is_http scope = true ->
  app scope receive send w = (Raise (RequestValidationError errors), w1) ->
  let record :=
    mkLogRecord "warning" "validation_error" [("errors", VList errors)]
      None (contextvars w1) in
  let w2 := with_log (log w1 ++ [record]) w1 in
  _handle_validation_error logger (mkRequest scope) errors w1
    = (Ok (validation_failed scope), w2) /\
  ExceptionMiddleware logger app scope receive send w
    = JSONResponse.__call__ (validation_failed scope) scope receive send w2 /\
  JSONResponse.__call__ (validation_failed scope) scope receive wire_send w2
    = (Ok tt,
       with_wire
         (wire w2 ++
            [http_response_start 422 (Some JSONResponse.init_headers);
             http_response_body
               (VDict [("detail", VStr "Request validation failed");
                       ("status_code", VInt 422);
                       ("request_id", VStr (first_header scope "x-request-id"))])])
         w2).
Proof.
  intros Hlog Hhttp Happ record w2.
  assert (Hh : _handle_validation_error logger (mkRequest scope) errors w1
               = (Ok (validation_failed scope), w2)).
  { unfold _handle_validation_error, logger_warning, logger_log, bind, ret.
    fold record. rewrite Hlog.
    unfold _get_request_id, request_headers_get. simpl.
    now rewrite Headers_get_first_header. }
  split; [exact Hh|]. split; [|apply JSONResponse_on_the_wire].
  unfold ExceptionMiddleware. rewrite Hhttp. simpl.
  unfold try_except. rewrite Happ. simpl.
  unfold bind at 1. now rewrite Hh.
Qed.

Lemma validation_failure_gives_422_witness :
  ExceptionMiddleware working_logger
    (raising_route
       (RequestValidationError
          [VDict [("loc", VList [VStr "query"; VStr "required_param"]);
                  ("msg", VStr "Field required")]]))
    (get_request "/raise-validation" [("x-request-id", "req-7")])
    no_receive wire_send new_world
  = JSONResponse.__call__
      (validation_failed (get_request "/raise-validation" [("x-request-id", "req-7")]))
      (get_request "/raise-validation" [("x-request-id", "req-7")])
      no_receive wire_send
      (with_log
         [mkLogRecord "warning" "validation_error"
            [("errors",
              VList [VDict [("loc", VList [VStr "query"; VStr "required_param"]);
                            ("msg", VStr "Field required")]])]
            None []]
         new_world).
Proof.
  refine (proj1 (proj2 (@validation_failure_gives_422 working_logger
                          (raising_route (RequestValidationError _))
                          (get_request "/raise-validation" [("x-request-id", "req-7")])
                          no_receive wire_send
                          new_world _ new_world _ eq_refl eq_refl))).
  intros r. reflexivity.
Defined.

Lemma find_all_false A (f : A -> bool) l :
  (forall x, In x l -> f x = false) -> find f l = None.
Proof.
  induction l as [|a l IH]; simpl; intros H; auto.
  rewrite (H a (or_introl eq_refl)). apply IH. auto.
Qed.

Lemma str_mem_false k l : ~ In k l -> str_mem k l = false.
Proof.
  unfold str_mem. induction l as [|a l IH]; simpl; intros H; auto.
  destruct (String.eqb k a) eqn:E; simpl.
  - apply String.eqb_eq in E. exfalso. apply H. now left.
  - apply IH. intros Hin. apply H. now right.
Qed.

Lemma call_kwargs_no_clash explicit star :
  (forall k, In k (PyDict.keys star) -> ~ In k (PyDict.keys explicit)) ->
  call_kwargs explicit star = Ok (explicit ++ star).
Proof.
  intros H. unfold call_kwargs.
  rewrite find_all_false; auto.
  intros k Hk. apply str_mem_false. auto.
Qed.

Lemma call_logger_kwargs_no_clash explicit star :
  (forall k, In k (PyDict.keys star) ->
             ~ In k ("event" :: PyDict.keys explicit)) ->
  call_logger_kwargs explicit star = Ok (explicit ++ star).
Proof.
  intros H. unfold call_logger_kwargs.
  rewrite call_kwargs_no_clash.
  - destruct (str_mem "event" (PyDict.keys star)) eqn:E; auto.
    unfold str_mem in E. apply existsb_exists in E.
    destruct E as (k & Hin & Heq). apply String.eqb_eq in Heq. subst k.
    exfalso. apply (H "event" Hin). now left.
  - intros k Hin Hk. apply (H k Hin). now right.
Qed.

(** The handler of domain failures mirrors the failure: status and detail
    of the response are the failure's, for every class, default or
    overridden, provided that no key of [extra] repeats the logger's first
    parameter or a keyword the handler itself gives the logger, and that the
    logger writes. *)
Lemma domain_error_mirrored logger app scope receive send w exc w1 :
  logger_works logger ->
  is_http scope = true ->
  (forall k, In k (PyDict.keys (DomainError.extra exc)) ->
             ~ In k handler_keywords) ->
  app scope receive send w = (Raise (DomainExc exc), w1) ->
  exists record,
    ExceptionMiddleware logger app scope receive send w
    = JSONResponse.__call__ (domain_error_response scope exc) scope receive send
        (with_log (log w1 ++ [record]) w1).
Proof.
  intros Hlog Hhttp Hextra Happ.
  eexists. unfold ExceptionMiddleware. rewrite Hhttp. simpl.
  unfold try_except. rewrite Happ. simpl.
  unfold _handle_domain_error, lift_result, bind at 1 2 3.
  rewrite call_logger_kwargs_no_clash by exact Hextra.
  unfold logger_warning, logger_log. rewrite Hlog.
  unfold ret, _get_request_id, request_headers_get. simpl.
  rewrite Headers_get_first_header. reflexivity.
Qed.

(** The scenario of the specification: a route raising a not-found failure
    for "Order", no correlation header sent. *)
Example order_not_found_gives_404 :
  wire (snd (register_exception_handlers working_logger
               (raising_route (DomainExc order_not_found))
               (get_request "/raise-not-found" []) no_receive wire_send
               new_world))
  = [http_response_start 404 (Some JSONResponse.init_headers);
     http_response_body
       (VDict [("detail", VStr "Order not found");
               ("status_code", VInt 404);
               ("request_id", VStr "")])].
Proof. vm_compute. reflexivity. Qed.

(** A status passed to [NotFoundError] is not an override: it lands in
    [extra], and the handler's call of the logger then raises. *)
Example order_gone_raises_in_handler :
  DomainError.status_code order_gone = 404 /\
  fst (_handle_domain_error working_logger
         (mkRequest (get_request "/orders/7" [])) order_gone new_world)
  = Raise (TypeError "got multiple values for keyword argument 'status_code'").
Proof. vm_compute. auto. Qed.

(** C2 (the code departs from it).  A conflict failure raised with the
    keyword context [error_type="duplicate_email"] has status 409 and detail
    "Email already registered"; the handler, calling the logger with its own
    [error_type] keyword next to the failure's context, raises [TypeError]
    before it builds a response, and the request is answered by the
    catch-all: status 500, detail "Internal server error". *)
Theorem domain_error_with_clashing_keyword_gives_500 :
  let exc := conflict_with_error_type in
  let scope := get_request "/users" [] in
  DomainError.status_code exc = 409 /\
  DomainError.detail exc = "Email already registered" /\
  _handle_domain_error working_logger (mkRequest scope) exc new_world
    = (Raise (TypeError "got multiple values for keyword argument 'error_type'"),
       new_world) /\
  wire (snd (register_exception_handlers working_logger
               (raising_route (DomainExc exc)) scope no_receive wire_send
               new_world))
  = [http_response_start 500 (Some JSONResponse.init_headers);
     http_response_body
       (VDict [("detail", VStr "Internal server error");
               ("status_code", VInt 500);
               ("request_id", VStr "")])].
Proof. vm_compute. auto. Qed.

(** A context key named like the logger's first parameter does the same. *)
Example domain_error_with_event_keyword_gives_500 :
  _handle_domain_error working_logger
    (mkRequest (get_request "/users" [])) conflict_with_event new_world
    = (Raise (TypeError "got multiple values for argument 'event'"), new_world) /\
  last_status 0
    (wire (snd (register_exception_handlers working_logger
                  (raising_route (DomainExc conflict_with_event))
                  (get_request "/users" []) no_receive wire_send new_world)))
  = 500.
Proof. vm_compute. auto. Qed.

(** ** The middleware chain *)

Lemma not_http scope : scope_type scope <> "http" -> is_http scope = false.
Proof. intros H. unfold is_http. now apply String.eqb_neq. Qed.

(** C9.  On every exchange whose scope type is not "http", each of the
    three wrappers is the inner application itself, called with the very
    scope, receive and send it was given: the same messages reach the same
    channel in the same state, an exception the application raises goes up
    untouched, no header is appended, and neither the log nor the logging
    context is touched by the wrapper. *)
Theorem non_http_passes_through logger (security : SecurityHeadersMiddleware.t)
    app scope receive send :
  scope_type scope <> "http" ->
  UnhandledExceptionMiddleware.__call__ logger app scope receive send
    = app scope receive send /\
  SecurityHeadersMiddleware.__call__ security scope receive send
    = SecurityHeadersMiddleware.app security scope receive send /\
  AccessLogMiddleware.__call__ logger app scope receive send
    = app scope receive send.
Proof.
  intros H. apply not_http in H.
  unfold UnhandledExceptionMiddleware.__call__,
    SecurityHeadersMiddleware.__call__, AccessLogMiddleware.__call__.
  rewrite H. simpl. auto.
Qed.

Lemma non_http_passes_through_witness :
  AccessLogMiddleware.__call__ broken_logger failing_websocket_app
    websocket_scope no_receive wire_send new_world
  = (Raise (RuntimeError "socket handler failed"),
     with_wire [other_message "websocket.accept" VNone] new_world).
Proof.
  rewrite (proj2 (proj2 (@non_http_passes_through broken_logger
                           (default_security_headers failing_websocket_app)
                           failing_websocket_app websocket_scope
                           no_receive wire_send
                           ltac:(discriminate)))).
  reflexivity.
Defined.

(** ** Security headers *)

Section CustomHeaders.
Import SecurityHeadersMiddleware.

Lemma apply_custom_headers_other custom :
  forall headers k,
    ~ In k (PyDict.keys custom) ->
    PyDict.get k (apply_custom_headers custom headers) = PyDict.get k headers.
Proof.
  unfold apply_custom_headers, PyDict.items.
  induction custom as [|[k' v'] custom IH]; simpl; intros headers k Hk; auto.
  rewrite IH by tauto.
  assert (k' <> k) by tauto.
  destruct (truthy v'); simpl.
  - now apply get_set_other.
  - now apply get_pop_other.
Qed.

Lemma apply_custom_headers_entry custom :
  forall headers k v,
    NoDup (PyDict.keys custom) -> In (k, v) custom ->
    PyDict.get k (apply_custom_headers custom headers)
    = if truthy v then Some v else None.
Proof.
  induction custom as [|[k' v'] custom IH]; simpl; intros headers k v Hnd Hin.
  - contradiction.
  - inversion Hnd as [|? ? Hnotin Hnd']; subst.
    destruct Hin as [Heq | Hin].
    + inversion Heq; subst.
      change (PyDict.get k
                (apply_custom_headers custom
                   (if truthy v then PyDict.set k v headers
                    else PyDict.pop k headers))
              = (if truthy v then Some v else None)).
      rewrite apply_custom_headers_other by exact Hnotin.
      destruct (truthy v).
      * apply get_set_same.
      * apply get_pop_same.
    + change (PyDict.get k
                (apply_custom_headers custom
                   (if truthy v' then PyDict.set k' v' headers
                    else PyDict.pop k' headers))
              = (if truthy v then Some v else None)).
      now apply IH.
Qed.

Lemma raw_headers_of_init app csp hsts custom :
  _raw_headers (__init__ app csp hsts custom)
  = map raw_header (_headers (__init__ app csp hsts custom)).
Proof. reflexivity. Qed.

Lemma header_goes_raw (headers : PyDict.t string) k v :
  PyDict.get k headers = Some v -> In (lower k, v) (map raw_header headers).
Proof.
  intros H. apply get_Some_In in H.
  change (lower k, v) with (raw_header (k, v)). now apply in_map.
Qed.

Lemma default_headers_present app hsts :
  incl default_security_headers_on_the_wire
    (_raw_headers (__init__ app default_content_security_policy hsts None)).
Proof.
  unfold __init__. destruct (truthy hsts); simpl;
    intros x Hx; simpl in Hx; simpl; tauto.
Qed.

Lemma apply_custom_headers_wf custom :
  forall headers,
    PyDict.wf headers -> PyDict.wf (apply_custom_headers custom headers).
Proof.
  unfold apply_custom_headers, PyDict.items.
  induction custom as [|[k v] custom IH]; simpl; intros headers Hwf; auto.
  apply IH. destruct (truthy v); [now apply wf_set | now apply wf_pop].
Qed.

Lemma apply_custom_headers_keys custom :
  forall headers k,
    In k (PyDict.keys (apply_custom_headers custom headers)) ->
    In k (PyDict.keys headers) \/ In k (PyDict.keys custom).
Proof.
  unfold apply_custom_headers, PyDict.items.
  induction custom as [|[k0 v0] custom IH]; simpl; intros headers k Hin; auto.
  apply IH in Hin. destruct Hin as [Hin | Hin]; [|tauto].
  destruct (truthy v0).
  - apply keys_set in Hin. intuition (subst; auto).
  - apply keys_pop_incl in Hin. tauto.
Qed.

Lemma init_headers_wf app csp hsts custom :
  PyDict.wf (_headers (__init__ app csp hsts custom)).
Proof.
  unfold __init__. simpl.
  assert (H0 : PyDict.wf _DEFAULT_HEADERS).
  { unfold PyDict.wf. simpl.
    repeat (constructor; [simpl; intuition discriminate|]). constructor. }
  assert (H1 : PyDict.wf
                 (if truthy csp
                  then PyDict.set "Content-Security-Policy" csp _DEFAULT_HEADERS
                  else _DEFAULT_HEADERS)).
  { destruct (truthy csp); [now apply wf_set | exact H0]. }
  assert (H2 : PyDict.wf
                 (if truthy hsts
                  then PyDict.set "Strict-Transport-Security" hsts
                         (if truthy csp
                          then PyDict.set "Content-Security-Policy" csp
                                 _DEFAULT_HEADERS
                          else _DEFAULT_HEADERS)
                  else (if truthy csp
                        then PyDict.set "Content-Security-Policy" csp
                               _DEFAULT_HEADERS
                        else _DEFAULT_HEADERS))).
  { destruct (truthy hsts); [now apply wf_set | exact H1]. }
  destruct custom as [custom|]; [now apply apply_custom_headers_wf | exact H2].
Qed.

Lemma init_headers_keys app csp hsts custom k :
  In k (PyDict.keys (_headers (__init__ app csp hsts (Some custom)))) ->
  In k security_header_names \/ In k (PyDict.keys custom).
Proof.
  unfold __init__. simpl. intros Hin.
  apply apply_custom_headers_keys in Hin. destruct Hin as [Hin | Hin]; [|tauto].
  left. unfold security_header_names.
  destruct (truthy hsts), (truthy csp); simpl in Hin |- *; intuition auto.
Qed.

End CustomHeaders.

Lemma error_response_carries_security_headers logger is_production
    name message scope w :
  is_http scope = true ->
  wire (snd (create_app_below_correlation logger is_production
               (raising_route (PyException name message))
               scope no_receive wire_send w))
  = wire w ++
      [http_response_start 500
         (Some (JSONResponse.init_headers ++ create_app_raw_headers is_production));
       http_response_body
         (error_body "Internal server error" 500
            (first_header scope "x-request-id"))].
Proof.
  intros Hhttp.
  unfold create_app_below_correlation, SecurityHeadersMiddleware.__call__,
    AccessLogMiddleware.__call__, register_exception_handlers,
    UnhandledExceptionMiddleware.__call__, ExceptionMiddleware, raising_route.
  simpl. rewrite Hhttp. simpl.
  unfold request_headers_get. simpl. rewrite Headers_get_first_header.
  unfold AccessLogMiddleware.log_request, logger_exception, logger_info,
    logger_log, clear_contextvars, bind_contextvars, new_cell, perf_counter,
    read_cell, write_cell, JSONResponse.__call__,
    SecurityHeadersMiddleware.send_with_headers,
    AccessLogMiddleware.send_wrapper, wire_send.
  unfold_monad. simpl.
  destruct (log_fault logger _); simpl;
    destruct (log_fault logger _); simpl;
    rewrite <- app_assoc; destruct is_production; reflexivity.
Qed.

(** X22.  The security-headers wrapper, built with the default policy and
    no custom headers, holds the seven default headers (frame options,
    sniffing prevention, referrer policy, permissions policy, XSS filter off,
    no caching, content security policy); for an HTTP exchange it runs the
    inner application on a channel that appends its headers to every
    response-start message and forwards every other message as it is, so
    that also the 500 response to a failed route goes out with them.  The
    names of a custom-headers dictionary are taken as written: a name mapped
    to a non-empty value has that value in the set under that very name (and
    is sent under the lower-cased name), and a name mapped to the empty
    string has no entry under that very name in the set; headers of the set
    under another spelling of the name are not touched. *)
Theorem security_headers_on_every_response :
  (forall app hsts,
      incl default_security_headers_on_the_wire
        (SecurityHeadersMiddleware._raw_headers
           (SecurityHeadersMiddleware.__init__ app
              SecurityHeadersMiddleware.default_content_security_policy
              hsts None))) /\
  (forall self scope receive send,
      is_http scope = true ->
      SecurityHeadersMiddleware.__call__ self scope receive send
      = SecurityHeadersMiddleware.app self scope receive
          (SecurityHeadersMiddleware.send_with_headers self send)) /\
  (forall self send status headers,
      SecurityHeadersMiddleware.send_with_headers self send
        (http_response_start status headers)
      = send (http_response_start status
                (Some (match headers with Some h => h | None => [] end
                       ++ SecurityHeadersMiddleware._raw_headers self)))) /\
  (forall self send message,
      message_type message <> "http.response.start" ->
      SecurityHeadersMiddleware.send_with_headers self send message
      = send message) /\
  (forall logger is_production name message scope w,
      is_http scope = true ->
      wire (snd (create_app_below_correlation logger is_production
                   (raising_route (PyException name message))
                   scope no_receive wire_send w))
      = wire w ++
          [http_response_start 500
             (Some (JSONResponse.init_headers
                    ++ create_app_raw_headers is_production));
           http_response_body
             (error_body "Internal server error" 500
                (first_header scope "x-request-id"))]) /\
  (forall app csp hsts custom k v,
      PyDict.wf custom -> In (k, v) custom ->
      let self := SecurityHeadersMiddleware.__init__ app csp hsts (Some custom) in
      SecurityHeadersMiddleware._raw_headers self
        = map SecurityHeadersMiddleware.raw_header
            (SecurityHeadersMiddleware._headers self) /\
      (v <> "" ->
       PyDict.get k (SecurityHeadersMiddleware._headers self) = Some v /\
       In (lower k, v) (SecurityHeadersMiddleware._raw_headers self)) /\
      (v = "" ->
       PyDict.get k (SecurityHeadersMiddleware._headers self) = None /\
       ~ In k (PyDict.keys (SecurityHeadersMiddleware._headers self)))).
Proof.
  split; [exact default_headers_present|].
  split.
  { intros self scope receive send H.
    unfold SecurityHeadersMiddleware.__call__. now rewrite H. }
  split; [reflexivity|].
  split.
  { intros self send [status headers|body|t p] H; simpl in *; congruence. }
  split; [exact error_response_carries_security_headers|].
  intros app csp hsts custom k v Hwf Hin self.
  split; [reflexivity|].
  assert (Hget : PyDict.get k (SecurityHeadersMiddleware._headers self)
                 = if truthy v then Some v else None).
  { subst self. unfold SecurityHeadersMiddleware.__init__. simpl.
    now apply apply_custom_headers_entry. }
  split.
  - intros Hv. assert (Ht : truthy v = true).
    { unfold truthy. apply String.eqb_neq in Hv. now rewrite Hv. }
    rewrite Ht in Hget. split; [exact Hget|].
    now apply header_goes_raw.
  - intros ->. simpl in Hget. split; [exact Hget|].
    now apply get_None_not_key.
Qed.

Lemma security_headers_on_every_response_witness :
  let self :=
    SecurityHeadersMiddleware.__init__ (json_route VNone)
      SecurityHeadersMiddleware.default_content_security_policy ""
      (Some sample_custom_headers) in
  PyDict.get "X-Frame-Options" (SecurityHeadersMiddleware._headers self)
    = Some "SAMEORIGIN" /\
  PyDict.get "Cache-Control" (SecurityHeadersMiddleware._headers self) = None.
Proof.
  pose proof (proj2 (proj2 (proj2 (proj2 (proj2
                security_headers_on_every_response))))) as H.
  assert (Hwf : PyDict.wf sample_custom_headers).
  { repeat constructor; simpl; intuition discriminate. }
  split.
  - refine (proj1 (proj1 (proj2 (H (json_route VNone) _ "" sample_custom_headers
                                   "X-Frame-Options" "SAMEORIGIN" Hwf _)) _)).
    + simpl. auto.
    + discriminate.
  - refine (proj1 (proj2 (proj2 (H (json_route VNone) _ "" sample_custom_headers
                                   "Cache-Control" "" Hwf _)) eq_refl)).
    simpl. auto.
Defined.

(** C5.  A custom-headers dictionary that names the frame-options header
    in lower case, as the wrapper itself sends it.  Mapped to the empty
    string, it removes nothing: the set is the default set, and a response
    goes out with x-frame-options: DENY.  Mapped to a non-empty value, it
    replaces nothing: the default value stays and the new value is sent as a
    second header of the same name. *)
Theorem custom_header_in_lower_case_is_not_matched :
  SecurityHeadersMiddleware._raw_headers
    (security_headers_with [("x-frame-options", "")])
  = default_security_headers_on_the_wire /\
  wire (snd (SecurityHeadersMiddleware.__call__
               (security_headers_with [("x-frame-options", "")])
               (get_request "/health/live" []) no_receive wire_send new_world))
  = [http_response_start 200
       (Some (("content-type", "application/json")
              :: default_security_headers_on_the_wire));
     http_response_body VNone] /\
  SecurityHeadersMiddleware._raw_headers
    (security_headers_with [("x-frame-options", "SAMEORIGIN")])
  = default_security_headers_on_the_wire
    ++ [("x-frame-options", "SAMEORIGIN")] /\
  In ("x-frame-options", "DENY") default_security_headers_on_the_wire.
Proof. vm_compute. auto. Qed.

(** The wrapper of [create_app] on a successful response, in full. *)
Example security_headers_on_a_200 :
  wire (snd (SecurityHeadersMiddleware.__call__
               (default_security_headers (json_route (VDict [("status", VStr "alive")])))
               (get_request "/health/live" []) no_receive wire_send new_world))
  = [http_response_start 200
       (Some (("content-type", "application/json")
              :: default_security_headers_on_the_wire));
     http_response_body (VDict [("status", VStr "alive")])].
Proof. vm_compute. reflexivity. Qed.

(** ** The correlation binding of the access log *)

Lemma log_request_keeps_contextvars logger scope cell start w :
  contextvars (snd (AccessLogMiddleware.log_request logger scope cell start w))
  = contextvars w.
Proof.
  unfold AccessLogMiddleware.log_request, perf_counter, read_cell,
    logger_info, logger_log.
  unfold_monad. simpl.
  destruct (log_fault logger _); reflexivity.
Qed.

(** C8 (amended).  For every HTTP request the access-log wrapper handles,
    from whatever logging context it finds: the wrapper empties the context
    and binds this request's correlation identifier before the inner
    application starts, so the application (and every log line written
    while the request is handled) sees this request's binding and nothing
    bound by an earlier request.  The wrapper does not clear the binding
    when the request ends: when it returns or raises, the logging context is
    the one the inner application left. *)
Theorem access_log_binds_at_request_start logger app scope receive send w :
  is_http scope = true ->
  let request_id := _extract_header scope "x-request-id" in
  let status_code := length (cells w) in
  let entered :=
    with_cells (cells w ++ [500])
      (with_contextvars [("request_id", VStr request_id)] w) in
  contextvars entered = [("request_id", VStr request_id)] /\
  AccessLogMiddleware.__call__ logger app scope receive send w
    = try_finally
        (app scope receive (AccessLogMiddleware.send_wrapper status_code send))
        (AccessLogMiddleware.log_request logger scope status_code (clock w))
        entered /\
  contextvars (snd (AccessLogMiddleware.__call__ logger app scope receive send w))
    = contextvars
        (snd (app scope receive
                (AccessLogMiddleware.send_wrapper status_code send) entered)).
Proof.
  intros Hhttp request_id status_code entered.
  assert (Heq : AccessLogMiddleware.__call__ logger app scope receive send w
    = try_finally
        (app scope receive (AccessLogMiddleware.send_wrapper status_code send))
        (AccessLogMiddleware.log_request logger scope status_code (clock w))
        entered).
  { unfold AccessLogMiddleware.__call__. rewrite Hhttp. simpl.
    unfold clear_contextvars, bind_contextvars, new_cell, perf_counter.
    unfold_monad. simpl.
    fold request_id. fold status_code.
    change (with_cells _ _) with entered.
    destruct (app scope receive _ entered) as [[a|e] w1]; reflexivity. }
  split; [reflexivity|]. split; [exact Heq|].
  rewrite Heq. unfold try_finally.
  destruct (app scope receive _ entered) as [r w1]. simpl.
  pose proof (log_request_keeps_contextvars logger scope status_code (clock w) w1)
    as Hlog.
  destruct (AccessLogMiddleware.log_request logger scope status_code (clock w) w1)
    as [[u|e] w2]; exact Hlog.
Qed.

Lemma access_log_binds_at_request_start_witness :
  contextvars
    (snd (AccessLogMiddleware.__call__ working_logger
            (json_route (VDict [("status", VStr "alive")]))
            (get_request "/health/live" [("x-request-id", "req-2")])
            no_receive wire_send
            (with_contextvars [("request_id", VStr "req-1")] new_world)))
  = [("request_id", VStr "req-2")].
Proof.
  rewrite (proj2 (proj2 (@access_log_binds_at_request_start working_logger
                           (json_route (VDict [("status", VStr "alive")]))
                           (get_request "/health/live" [("x-request-id", "req-2")])
                           no_receive wire_send
                           (with_contextvars [("request_id", VStr "req-1")] new_world)
                           eq_refl))).
  reflexivity.
Defined.

(** C8 as stated fails: after the wrapper has handled a request, by a
    response or by an exception, the binding of that request is still in
    the logging context. *)
Lemma access_log_binding_outlives_request :
  PyDict.get "request_id"
    (contextvars
       (snd (AccessLogMiddleware.__call__ working_logger
               (json_route (VDict [("status", VStr "alive")]))
               (get_request "/health/live" [("x-request-id", "req-1")])
               no_receive wire_send new_world)))
  = Some (VStr "req-1") /\
  PyDict.get "request_id"
    (contextvars
       (snd (AccessLogMiddleware.__call__ working_logger
               (raising_route (RuntimeError "unexpected failure"))
               (get_request "/raise-unhandled" [("x-request-id", "req-1")])
               no_receive wire_send new_world)))
  = Some (VStr "req-1").
Proof. vm_compute. auto. Qed.

(** ** Readiness *)

Section Readiness.
Variable logger : Logger.
Hypothesis logger_ok : logger_works logger.
Variable check_timeout : Z.

(** One turn of the loop never raises: it records what the condition
    returned, or [false] when it raised or timed out. *)
Lemma run_condition_records results condition w :
  exists w',
    run_condition logger check_timeout results condition w
    = (Ok (PyDict.set (condition_name condition)
             (recorded (fst (condition_call condition w))) results), w').
Proof.
  unfold run_condition, logger_warning, logger_exception, logger_log.
  unfold_monad.
  destruct (condition_call condition w) as [[b|e] w1]; simpl.
  - eauto.
  - destruct (is_TimeoutError e); rewrite logger_ok; eauto.
Qed.





End Readiness.


(** C4.  Two registered conditions of one name, as a factory of checks
    returns them: the first raises, the second passes.  The failure is
    logged, yet its entry is overwritten by the second condition's, and the
    endpoint answers 200 "ready" with a single entry, true, although a
    condition failed. *)
Theorem readiness_failure_is_hidden_by_a_namesake :
  fst (condition_call database_check new_world)
    = Raise (PyException "ConnectionRefusedError" "connection refused") /\
  condition_name database_check = condition_name cache_check /\
  fst (readiness working_logger [database_check; cache_check] 5 new_world)
    = Ok (mkReply 200 "ready" [("check", true)]) /\
  map event (log (snd (readiness working_logger [database_check; cache_check]
                         5 new_world)))
    = ["readiness_check_failed"].
Proof. vm_compute. auto. Qed.

(** No condition: ready.  One passing, one timed out, one failed: not
    ready, each with its entry, the two failures in the log. *)
Example readiness_of_three :
  fst (readiness working_logger [] 5 new_world)
    = Ok (mkReply 200 "ready" []) /\
  fst (readiness working_logger [db_online; cache_online; queue_online] 5
         new_world)
    = Ok (mkReply 503 "not_ready"
            [("_is_db_online", true); ("_is_cache_online", false);
             ("_is_queue_online", false)]) /\
  map event (log (snd (readiness working_logger
                         [db_online; cache_online; queue_online] 5 new_world)))
    = ["readiness_check_timeout"; "readiness_check_failed"].
Proof. vm_compute. auto. Qed.

(* ================================================================== *)
(** * Part III. Further properties of the code                          *)
(* ================================================================== *)

(** ** The access log *)

Lemma list_assign_length i v l : length (list_assign i v l) = length l.
Proof.
  revert i. induction l as [|x l IH]; intros [|i]; simpl; auto.
Qed.

Lemma list_assign_nth i v l d :
  (i < length l)%nat -> nth i (list_assign i v l) d = v.
Proof.
  revert i. induction l as [|x l IH]; intros [|i]; simpl; intros H;
    try lia; auto. apply IH. lia.
Qed.

(** Sending a list of messages through the wrapper's channel: all of them
    reach the wire, and the captured variable holds the last status. *)
Lemma send_all_through_wrapper cell messages :
  forall w,
    (cell < length (cells w))%nat ->
    exists w',
      send_all (AccessLogMiddleware.send_wrapper cell wire_send) messages w
        = (Ok tt, w') /\
      contextvars w' = contextvars w /\ log w' = log w /\
      clock w' = clock w /\
      wire w' = wire w ++ messages /\
      (cell < length (cells w'))%nat /\
      nth cell (cells w') 0 = last_status (nth cell (cells w) 0) messages.
Proof.
  induction messages as [|m messages IH]; intros w Hcell.
  - exists w. simpl. rewrite app_nil_r. auto 10.
  - set (w1 := with_wire (wire w ++ [m])
                 (match m with
                  | http_response_start s _ =>
                      with_cells (list_assign cell s (cells w)) w
                  | _ => w
                  end)).
    assert (H1 : AccessLogMiddleware.send_wrapper cell wire_send m w = (Ok tt, w1)).
    { unfold AccessLogMiddleware.send_wrapper, write_cell, wire_send.
      unfold_monad. destruct m; reflexivity. }
    assert (Hcell1 : (cell < length (cells w1))%nat).
    { subst w1. destruct m; simpl; auto. now rewrite list_assign_length. }
    destruct (IH w1 Hcell1) as (w' & Hrun & Hc & Hl & Hk & Hw & Hlen & Hnth).
    exists w'. split.
    { simpl. unfold bind. rewrite H1. exact Hrun. }
    rewrite Hc, Hl, Hk, Hw, Hnth. subst w1.
    destruct m; simpl; rewrite <- ?app_assoc; simpl;
      rewrite ?list_assign_nth by exact Hcell; auto 10.
Qed.

(** What the wrapper does around an application that sends [messages],
    takes [elapsed] ticks and ends with [outcome]. *)
Lemma access_log_around_scripted_app logger messages elapsed outcome
    scope receive w :
  is_http scope = true ->
  let record := request_record scope (last_status 500 messages) elapsed in
  exists w',
    AccessLogMiddleware.__call__ logger (scripted_app messages elapsed outcome)
      scope receive wire_send w
    = (match log_fault logger record with
       | Some e => Raise e
       | None => outcome
       end, w') /\
    wire w' = wire w ++ messages /\
    log w' = match log_fault logger record with
             | Some _ => log w
             | None => log w ++ [record]
             end.
Proof.
  intros Hhttp record.
  unfold AccessLogMiddleware.__call__. rewrite Hhttp. simpl.
  unfold clear_contextvars, bind_contextvars, new_cell, perf_counter.
  unfold bind at 1 2 3 4. unfold modify. simpl.
  set (entered := with_cells _ _).
  assert (Hcell : (length (cells w) < length (cells entered))%nat).
  { subst entered. simpl. rewrite length_app. simpl. lia. }
  destruct (@send_all_through_wrapper (length (cells w)) messages entered Hcell)
    as (w1 & Hrun & Hc & Hl & Hk & Hw & Hlen & Hnth).
  assert (Hentered : nth (length (cells w)) (cells entered) 0 = 500).
  { subst entered. simpl. rewrite app_nth2 by lia.
    now rewrite Nat.sub_diag. }
  rewrite Hentered in Hnth.
  unfold try_finally, try_except, scripted_app, bind at 1 2.
  rewrite Hrun. unfold modify, lift_result.
  unfold AccessLogMiddleware.log_request, perf_counter, read_cell,
    logger_info, logger_log, bind. simpl.
  assert (Hd : clock entered + elapsed - clock w = elapsed)
    by (subst entered; simpl; lia).
  assert (Hctx : contextvars entered
                 = [("request_id", VStr (_extract_header scope "x-request-id"))])
    by reflexivity.
  assert (Hwire : wire entered = wire w) by reflexivity.
  assert (Hlog : log entered = log w) by reflexivity.
  clearbody entered.
  destruct outcome as [[]|e]; unfold raise; simpl;
    rewrite Hnth, Hk, Hc, Hd, Hctx;
    fold (request_record scope (last_status 500 messages) elapsed);
    fold record;
    destruct (log_fault logger record); simpl;
    eexists; (split; [reflexivity|]); simpl;
    rewrite ?Hw, ?Hl, ?Hwire, ?Hlog; auto.
Qed.

(** X1.  Around an application that sends its messages and then returns or
    raises, and with a logger that writes, the access-log wrapper passes
    every message on to the server unchanged and in order, and ends as the
    application ended: same return, same exception. *)
Theorem access_log_is_transparent logger messages elapsed outcome
    scope receive w :
  logger_works logger ->
  is_http scope = true ->
  let out :=
    AccessLogMiddleware.__call__ logger (scripted_app messages elapsed outcome)
      scope receive wire_send w in
  fst out = outcome /\ wire (snd out) = wire w ++ messages.
Proof.
  intros Hlog Hhttp out.
  destruct (@access_log_around_scripted_app logger messages elapsed outcome
              scope receive w Hhttp) as (w' & Hout & Hwire & _).
  subst out. rewrite Hout. rewrite Hlog in *. auto.
Qed.

Lemma access_log_is_transparent_witness :
  fst (AccessLogMiddleware.__call__ working_logger
         (scripted_app (ok_messages (VDict [("status", VStr "alive")])) 3
            (Raise (RuntimeError "background task failed")))
         (get_request "/health/live" []) no_receive wire_send new_world)
  = Raise (RuntimeError "background task failed").
Proof.
  refine (proj1 (@access_log_is_transparent working_logger
                   (ok_messages (VDict [("status", VStr "alive")])) 3
                   (Raise (RuntimeError "background task failed"))
                   (get_request "/health/live" []) no_receive new_world
                   (fun _ => eq_refl) eq_refl)).
Defined.

(** X2.  Around an application that sends its messages, takes its time
    and then returns or raises, leaving the logging context alone, and with
    a logger that writes: the wrapper adds exactly one record to the log,
    after the application has ended, also when it ended by an exception:
    event "request", with the method and path of the scope, the status of
    the last response-start message the application sent (500 when it sent
    none), the clock time the application took, the client address, and the
    request's correlation identifier as context. *)
Theorem access_log_records_the_request logger messages elapsed outcome
    scope receive w :
  logger_works logger ->
  is_http scope = true ->
  log (snd (AccessLogMiddleware.__call__ logger
              (scripted_app messages elapsed outcome)
              scope receive wire_send w))
  = log w ++ [request_record scope (last_status 500 messages) elapsed].
Proof.
  intros Hlog Hhttp.
  destruct (@access_log_around_scripted_app logger messages elapsed outcome
              scope receive w Hhttp) as (w' & Hout & _ & Hl).
  rewrite Hout. simpl. rewrite Hlog in Hl. exact Hl.
Qed.

Lemma access_log_records_the_request_witness :
  log (snd (AccessLogMiddleware.__call__ working_logger
              (scripted_app [] 7 (Raise (RuntimeError "unexpected failure")))
              (get_request "/raise-unhandled"
                 [("x-forwarded-for", "203.0.113.9, 10.0.0.1")])
              no_receive wire_send new_world))
  = [mkLogRecord "info" "request"
       [("method", VStr "GET"); ("path", VStr "/raise-unhandled");
        ("status_code", VInt 500); ("duration_ms", VInt 7);
        ("client_ip", VStr "203.0.113.9")]
       None [("request_id", VStr "")]].
Proof.
  rewrite (@access_log_records_the_request working_logger []
             7 (Raise (RuntimeError "unexpected failure"))
             (get_request "/raise-unhandled"
                [("x-forwarded-for", "203.0.113.9, 10.0.0.1")])
             no_receive new_world (fun _ => eq_refl) eq_refl).
  reflexivity.
Defined.

(** X3.  When writing the access-log record raises, the wrapper raises
    that exception in place of the application's own outcome, a normal
    return included; the response messages have all reached the server by
    then, and nothing is added to the log. *)
Theorem access_log_failure_replaces_the_outcome logger messages elapsed
    outcome scope receive w e :
  is_http scope = true ->
  log_fault logger (request_record scope (last_status 500 messages) elapsed)
    = Some e ->
  let out :=
    AccessLogMiddleware.__call__ logger (scripted_app messages elapsed outcome)
      scope receive wire_send w in
  fst out = Raise e /\
  wire (snd out) = wire w ++ messages /\
  log (snd out) = log w.
Proof.
  intros Hhttp Hfault out.
  destruct (@access_log_around_scripted_app logger messages elapsed outcome
              scope receive w Hhttp) as (w' & Hout & Hwire & Hl).
  subst out. rewrite Hout. rewrite Hfault in *. auto.
Qed.

Lemma access_log_failure_replaces_the_outcome_witness :
  fst (AccessLogMiddleware.__call__ access_log_broken_logger
         (scripted_app (ok_messages (VDict [("status", VStr "alive")])) 3
            (Ok tt))
         (get_request "/health/live" []) no_receive wire_send new_world)
  = Raise (PyException "OSError" "log sink is closed").
Proof.
  refine (proj1 (@access_log_failure_replaces_the_outcome
                   access_log_broken_logger
                   (ok_messages (VDict [("status", VStr "alive")])) 3 (Ok tt)
                   (get_request "/health/live" []) no_receive new_world _
                   eq_refl eq_refl)).
Defined.

(** ** More of the error pipeline *)

(** X4.  A routing-level failure (no such route, method not allowed) is
    answered with the status and the message the framework gave it and the
    request's correlation identifier; the handler writes no log record, so
    the answer is the same with every logger, a failing one included. *)
Theorem routing_failure_is_mirrored logger app scope receive send w
    status detail w1 :
  is_http scope = true ->
  app scope receive send w = (Raise (StarletteHTTPException status detail), w1) ->
  ExceptionMiddleware logger app scope receive send w
  = JSONResponse.__call__
      (JSONResponse.mk status
         (error_body detail status (first_header scope "x-request-id")))
      scope receive send w1.
Proof.
  intros Hhttp Happ.
  unfold ExceptionMiddleware. rewrite Hhttp. simpl.
  unfold try_except. rewrite Happ. simpl.
  unfold _handle_http_error, bind, ret, _get_request_id, request_headers_get.
  simpl. now rewrite Headers_get_first_header.
Qed.

Lemma routing_failure_is_mirrored_witness :
  wire (snd (ExceptionMiddleware broken_logger
               (raising_route (StarletteHTTPException 404 "Not Found"))
               (get_request "/nonexistent" [("x-request-id", "req-4")])
               no_receive wire_send new_world))
  = [http_response_start 404 (Some JSONResponse.init_headers);
     http_response_body
       (VDict [("detail", VStr "Not Found"); ("status_code", VInt 404);
               ("request_id", VStr "req-4")])].
Proof.
  rewrite (@routing_failure_is_mirrored broken_logger
             (raising_route (StarletteHTTPException 404 "Not Found"))
             (get_request "/nonexistent" [("x-request-id", "req-4")])
             no_receive wire_send new_world 404 "Not Found" new_world
             eq_refl eq_refl).
  reflexivity.
Defined.

(** X5.  The keyword context of a domain failure goes to the log and
    nowhere else: when none of its keys is "event" (the logger's first
    parameter) or repeats a keyword of the handler (error_type, detail,
    status_code) and the logger writes, the handler writes one warning
    record "domain_error" with the class name, the detail, the status and
    then the context, and sends a response made of the failure's status and
    detail and of the request's correlation identifier only. *)
Theorem domain_failure_context_is_logged_only logger app scope receive send w
    exc w1 :
  logger_works logger ->
  is_http scope = true ->
  (forall k, In k (PyDict.keys (DomainError.extra exc)) ->
             ~ In k handler_keywords) ->
  app scope receive send w = (Raise (DomainExc exc), w1) ->
  ExceptionMiddleware logger app scope receive send w
  = JSONResponse.__call__ (domain_error_response scope exc) scope receive send
      (with_log
         (log w1 ++
            [mkLogRecord "warning" "domain_error"
               ([("error_type", VStr (DomainError.__name__ (DomainError.class exc)));
                 ("detail", VStr (DomainError.detail exc));
                 ("status_code", VInt (DomainError.status_code exc))]
                ++ DomainError.extra exc)
               None (contextvars w1)])
         w1).
Proof.
  intros Hlog Hhttp Hextra Happ.
  unfold ExceptionMiddleware. rewrite Hhttp. simpl.
  unfold try_except. rewrite Happ. simpl.
  unfold _handle_domain_error, lift_result, bind at 1 2 3.
  rewrite call_logger_kwargs_no_clash by exact Hextra.
  unfold logger_warning, logger_log. rewrite Hlog.
  unfold ret, _get_request_id, request_headers_get. simpl.
  rewrite Headers_get_first_header. reflexivity.
Qed.

Lemma domain_failure_context_is_logged_only_witness :
  wire (snd (ExceptionMiddleware working_logger
               (raising_route (DomainExc order_not_found))
               (get_request "/raise-not-found" []) no_receive wire_send
               new_world))
  = [http_response_start 404 (Some JSONResponse.init_headers);
     http_response_body
       (VDict [("detail", VStr "Order not found"); ("status_code", VInt 404);
               ("request_id", VStr "")])].
Proof.
  rewrite (@domain_failure_context_is_logged_only working_logger
             (raising_route (DomainExc order_not_found))
             (get_request "/raise-not-found" []) no_receive wire_send
             new_world order_not_found new_world (fun _ => eq_refl) eq_refl).
  - reflexivity.
  - simpl. intros k [<-|[]] H. simpl in H.
    repeat (destruct H as [H|H]; [discriminate|]). exact H.
  - reflexivity.
Defined.




(** ** More of the security headers *)

Lemma lower_ascii_idempotent c : lower_ascii (lower_ascii c) = lower_ascii c.
Proof.
  destruct c as [[] [] [] [] [] [] [] []]; reflexivity.
Qed.

Lemma lower_idempotent s : lower (lower s) = lower s.
Proof.
  induction s as [|c s IH]; simpl; [reflexivity|].
  now rewrite lower_ascii_idempotent, IH.
Qed.

(** X7.  However the wrapper is built (whatever the policies and the
    custom headers, in whatever case their names are written), every header
    name it appends to a response is in lower case. *)
Theorem raw_header_names_are_lower_case app csp hsts custom :
  Forall (fun h => lower (fst h) = fst h)
    (SecurityHeadersMiddleware._raw_headers
       (SecurityHeadersMiddleware.__init__ app csp hsts custom)).
Proof.
  rewrite raw_headers_of_init. apply Forall_forall.
  intros h Hin. apply in_map_iff in Hin. destruct Hin as ([k v] & <- & _).
  simpl. apply lower_idempotent.
Qed.

(** X8.  Without custom headers, the wrapper appends a
    strict-transport-security header exactly when it is given a non-empty
    directive, and then with that directive as its value; [create_app]
    gives one in production only. *)
Theorem hsts_only_when_configured app csp hsts :
  let raw :=
    SecurityHeadersMiddleware._raw_headers
      (SecurityHeadersMiddleware.__init__ app csp hsts None) in
  (hsts <> "" -> In ("strict-transport-security", hsts) raw) /\
  (hsts = "" -> ~ In "strict-transport-security" (map fst raw)) /\
  (forall is_production,
      In "strict-transport-security"
         (map fst (create_app_raw_headers is_production))
      <-> is_production = true).
Proof.
  intros raw. split; [|split].
  - intros Hne. subst raw.
    assert (Ht : truthy hsts = true).
    { unfold truthy. apply String.eqb_neq in Hne. now rewrite Hne. }
    unfold SecurityHeadersMiddleware.__init__. rewrite Ht. simpl.
    change ("strict-transport-security", hsts)
      with (SecurityHeadersMiddleware.raw_header ("Strict-Transport-Security", hsts)).
    apply in_map. apply get_Some_In. apply get_set_same.
  - intros ->. subst raw. unfold SecurityHeadersMiddleware.__init__.
    destruct (truthy csp); simpl; intuition discriminate.
  - intros [|]; unfold create_app_raw_headers; simpl.
    + split; auto. intros _. right. right. right. right. right. right. right.
      now left.
    + split; [|discriminate]. intuition discriminate.
Qed.

Lemma hsts_only_when_configured_witness :
  In ("strict-transport-security", "max-age=63072000")
     (SecurityHeadersMiddleware._raw_headers
        (SecurityHeadersMiddleware.__init__ (json_route VNone)
           "default-src 'none'" "max-age=63072000" None)).
Proof.
  refine (proj1 (@hsts_only_when_configured (json_route VNone)
                   "default-src 'none'" "max-age=63072000") _).
  discriminate.
Defined.

(** ** More of the session manager *)

(** X23.  What a custom header does to the responses, for a name that no
    other name of the custom headers and no name of the wrapper's own
    headers (the six defaults, Content-Security-Policy and
    Strict-Transport-Security) equals up to case but itself: mapped to a
    non-empty value, the header is sent under the lower-cased name with
    that value and with no other; mapped to the empty string, no header of
    that lower-cased name is sent. *)
Theorem custom_header_decides_the_wire app csp hsts custom k v :
  PyDict.wf custom ->
  In (k, v) custom ->
  (forall k', In k' (security_header_names ++ PyDict.keys custom) ->
              lower k' = lower k -> k' = k) ->
  let raw :=
    SecurityHeadersMiddleware._raw_headers
      (SecurityHeadersMiddleware.__init__ app csp hsts (Some custom)) in
  (v <> "" ->
   In (lower k, v) raw /\ forall v', In (lower k, v') raw -> v' = v) /\
  (v = "" -> forall v', ~ In (lower k, v') raw).
Proof.
  intros Hwf Hin Hcase raw.
  assert (Hget : PyDict.get k
                   (SecurityHeadersMiddleware._headers
                      (SecurityHeadersMiddleware.__init__ app csp hsts
                         (Some custom)))
                 = if truthy v then Some v else None).
  { unfold SecurityHeadersMiddleware.__init__. simpl.
    now apply apply_custom_headers_entry. }
  assert (Hraw : forall v', In (lower k, v') raw ->
                   PyDict.get k
                     (SecurityHeadersMiddleware._headers
                        (SecurityHeadersMiddleware.__init__ app csp hsts
                           (Some custom)))
                   = Some v').
  { intros v' Hv'. subst raw. rewrite raw_headers_of_init in Hv'.
    apply in_map_iff in Hv'. destruct Hv' as ([k' v''] & Heq & Hin').
    unfold SecurityHeadersMiddleware.raw_header in Heq. simpl in Heq.
    inversion Heq as [[Hl Hv]]. subst v''.
    assert (k' = k) as ->.
    { apply Hcase; [|exact Hl]. apply in_or_app.
      apply (@init_headers_keys app csp hsts custom k').
      change k' with (fst (k', v')). now apply in_map. }
    apply In_get; [apply init_headers_wf | exact Hin']. }
  split.
  - intros Hv. assert (Ht : truthy v = true).
    { unfold truthy. apply String.eqb_neq in Hv. now rewrite Hv. }
    rewrite Ht in Hget. split.
    + subst raw. rewrite raw_headers_of_init. now apply header_goes_raw.
    + intros v' Hv'. apply Hraw in Hv'. congruence.
  - intros -> v' Hv'. apply Hraw in Hv'. rewrite Hv' in Hget. discriminate.
Qed.

Lemma custom_header_decides_the_wire_witness :
  let raw :=
    SecurityHeadersMiddleware._raw_headers
      (security_headers_with sample_custom_headers) in
  In ("x-frame-options", "SAMEORIGIN") raw /\
  (forall v', In ("x-frame-options", v') raw -> v' = "SAMEORIGIN") /\
  (forall v', ~ In ("cache-control", v') raw).
Proof.
  assert (Hwf : PyDict.wf sample_custom_headers).
  { repeat constructor; simpl; intuition discriminate. }
  assert (Hcase : forall k k',
             In k (PyDict.keys sample_custom_headers) ->
             In k' (security_header_names ++ PyDict.keys sample_custom_headers) ->
             lower k' = lower k -> k' = k).
  { intros k k' Hk Hk' Hl. simpl in Hk, Hk'.
    repeat (destruct Hk as [<- | Hk];
            [repeat (destruct Hk' as [<- | Hk'];
                     [first [reflexivity | discriminate Hl] |]);
             contradiction |]).
    contradiction. }
  pose proof (@custom_header_decides_the_wire (json_route VNone)
                SecurityHeadersMiddleware.default_content_security_policy ""
                sample_custom_headers "X-Frame-Options" "SAMEORIGIN" Hwf
                (or_introl eq_refl)
                (fun k' => Hcase "X-Frame-Options" k' (or_introl eq_refl))) as Hx.
  pose proof (@custom_header_decides_the_wire (json_route VNone)
                SecurityHeadersMiddleware.default_content_security_policy ""
                sample_custom_headers "Cache-Control" "" Hwf
                (or_intror (or_introl eq_refl))
                (fun k' =>
                   Hcase "Cache-Control" k' (or_intror (or_introl eq_refl))))
    as Hc.
  simpl in Hx, Hc. destruct Hx as [Hx _]. destruct Hc as [_ Hc].
  destruct Hx as [Hx1 Hx2]; [discriminate|].
  intros raw. split; [exact Hx1|]. split; [exact Hx2|]. exact (Hc eq_refl).
Defined.

(** X9.  [close] on a manager that holds no engine does nothing: it
    returns normally, makes no call to the database side and leaves the
    manager as it is.  So closing a manager that was never initialized is
    safe, and so is closing twice. *)
Theorem close_without_engine_is_a_no_op driver :
  (forall st, _engine (self st) = None -> close driver st = (Ok tt, st)) /\
  (forall st st', close driver st = (Ok tt, st') ->
                  close driver st' = (Ok tt, st')).
Proof.
  assert (H : forall st, _engine (self st) = None ->
                         close driver st = (Ok tt, st)).
  { intros st He. unfold close, get_self. unfold_monad. now rewrite He. }
  split; [exact H|].
  intros st st' Hc. apply H.
  pose proof (close_outcome driver st) as Ho. simpl in Ho.
  rewrite Hc in Ho. simpl in Ho. tauto.
Qed.

Lemma close_without_engine_is_a_no_op_witness :
  close reliable_driver
    (snd (close reliable_driver (ready_manager reliable_driver)))
  = (Ok tt, snd (close reliable_driver (ready_manager reliable_driver))).
Proof.
  refine (proj2 (@close_without_engine_is_a_no_op reliable_driver)
            (ready_manager reliable_driver) _ _).
  vm_compute. reflexivity.
Defined.

(** X10.  [close] on a manager that holds an engine makes exactly one
    call, the dispose of that engine.  When the dispose succeeds the manager
    holds neither engine nor factory afterwards; when it raises, [close]
    raises the same exception and the manager still holds both, so it stays
    initialized. *)
Theorem close_disposes_the_engine_held driver st e :
  _engine (self st) = Some e ->
  let out := close driver st in
  calls (database (snd out))
    = calls (database st) ++ [engine_dispose (engine_id e)] /\
  next_id (database (snd out)) = next_id (database st) /\
  match fault driver (engine_dispose (engine_id e)) with
  | None => fst out = Ok tt /\ self (snd out) = __init__
  | Some x => fst out = Raise x /\ self (snd out) = self st
  end.
Proof.
  intros He out. subst out.
  unfold close, AsyncEngine_dispose, driver_call, lift_db, set_engine,
    set_sessionmaker, get_self.
  unfold_monad. rewrite He. simpl.
  destruct (fault driver (engine_dispose (engine_id e))); simpl; auto.
Qed.

Lemma close_disposes_the_engine_held_witness :
  fst (close failing_dispose_driver (ready_manager failing_dispose_driver))
    = Raise (PyException "OSError" "connection reset") /\
  self (snd (close failing_dispose_driver (ready_manager failing_dispose_driver)))
    = self (ready_manager failing_dispose_driver).
Proof.
  exact (proj2 (proj2 (@close_disposes_the_engine_held failing_dispose_driver
                         (ready_manager failing_dispose_driver) _ eq_refl))).
Defined.

(** X11.  [init] makes exactly one call to the database side, the creation
    of an engine with a fresh identity for the given URL.  The engine always
    gets [pool_pre_ping] and [echo]; it gets [pool_size] and [max_overflow]
    when no pool class is given and only [poolclass] when one is.  An engine
    the manager held before is not disposed. *)
Theorem init_creates_one_engine driver url pool_size max_overflow
    pool_pre_ping echo pool_class st :
  calls (database (snd (init driver url pool_size max_overflow pool_pre_ping
                          echo pool_class st)))
  = calls (database st) ++
      [create_engine (next_id (database st)) url
         (init_engine_kwargs pool_size max_overflow pool_pre_ping echo
            pool_class)].
Proof.
  unfold init, create_async_engine, fresh_id, driver_call, lift_db,
    set_engine, set_sessionmaker, get_self, init_engine_kwargs.
  unfold_monad. simpl.
  destruct pool_class; simpl; destruct (fault driver _); reflexivity.
Qed.

Lemma count_calls_app p a b :
  count_calls p (a ++ b) = (count_calls p a + count_calls p b)%nat.
Proof. unfold count_calls. now rewrite filter_app, length_app. Qed.

(** One scope on an initialized manager: one session opened, one closed. *)
Lemma session_opens_and_closes_one driver body st e maker :
  _engine (self st) = Some e ->
  _sessionmaker (self st) = Some maker ->
  fault driver (session_open (next_id (database st))) = None ->
  leaves_lifecycle_alone body ->
  let st' := snd (session driver body st) in
  self st' = self st /\
  count_calls is_session_open (calls (database st'))
    = Datatypes.S (count_calls is_session_open (calls (database st))) /\
  count_calls is_session_close (calls (database st'))
    = Datatypes.S (count_calls is_session_close (calls (database st))).
Proof.
  intros He Hm Hopen Hbody st'. subst st'.
  split; [apply session_keeps_manager|].
  set (i := next_id (database st)) in *.
  set (s := mkSession i (sessionmaker_bind maker)).
  set (opened := mkDatabase (Datatypes.S i) (calls (database st) ++ [session_open i])).
  destruct (body s opened) as [rb db] eqn:Eb.
  destruct (@session_scope_calls unit driver s body opened rb db Eb)
    as (r & d' & Hscope & _ & Hspec).
  assert (Hsession : session driver body st = (r, mkState (self st) d')).
  { unfold session, _check_init, get_self, lift_db, sessionmaker_call,
      fresh_id, driver_call.
    unfold_monad. rewrite He, Hm. simpl. rewrite Hm.
    fold i. rewrite Hopen. fold s. fold opened. now rewrite Hscope. }
  rewrite Hsession. simpl.
  destruct (Hbody s opened) as (extra & Hextra & Hno_open & Hno_close).
  rewrite Eb in Hextra. simpl in Hextra.
  assert (Hcalls : exists suffix,
             calls d' = (calls (database st) ++ [session_open i]) ++ extra ++ suffix /\
             count_calls is_session_open suffix = 0%nat /\
             count_calls is_session_close suffix = 1%nat).
  { simpl in Hspec. destruct rb as [a|x].
    - destruct (fault driver (session_commit i)).
      + destruct Hspec as [-> _]. rewrite Hextra, <- app_assoc. eauto.
      + destruct Hspec as [-> _]. rewrite Hextra, <- app_assoc. eauto.
    - destruct Hspec as [-> _]. rewrite Hextra, <- app_assoc. eauto. }
  destruct Hcalls as (suffix & -> & Hs_open & Hs_close).
  rewrite !count_calls_app, Hno_open, Hno_close, Hs_open, Hs_close.
  change (count_calls is_session_open [session_open i]) with 1%nat.
  change (count_calls is_session_close [session_open i]) with 0%nat.
  split; lia.
Qed.

(** X12.  No session leaks over any number of scopes run one after the
    other on an initialized manager: whatever the blocks return or raise and
    whichever commits, rollbacks and closes fail, each scope opens exactly
    one session and calls close exactly once, and the manager stays as it
    was.  (The blocks use their session without opening or closing sessions
    themselves, and opening a session does not fail.) *)
Theorem sequential_scopes_close_what_they_open driver bodies :
  (forall i, fault driver (session_open i) = None) ->
  Forall leaves_lifecycle_alone bodies ->
  forall st e maker,
    _engine (self st) = Some e ->
    _sessionmaker (self st) = Some maker ->
    let st' := run driver (map call_session bodies) st in
    self st' = self st /\
    count_calls is_session_open (calls (database st'))
      = (count_calls is_session_open (calls (database st)) + length bodies)%nat /\
    count_calls is_session_close (calls (database st'))
      = (count_calls is_session_close (calls (database st)) + length bodies)%nat.
Proof.
  intros Hopen Hbodies.
  induction Hbodies as [|body bodies Hbody _ IH]; intros st e maker He Hm.
  - simpl. repeat split; lia.
  - simpl.
    destruct (@session_opens_and_closes_one driver body st e maker He Hm
                (Hopen _) Hbody) as (Hself & Ho & Hc).
    rewrite <- Hself in He, Hm.
    destruct (IH _ e maker He Hm) as (Hself' & Ho' & Hc').
    rewrite Hself', Ho', Hc', Ho, Hc, Hself. repeat split; lia.
Qed.

Lemma sequential_scopes_close_what_they_open_witness :
  count_calls is_session_close
    (calls (database (run failing_commit_driver
                        (map call_session
                           [failing_statement; (fun _ => ret tt)])
                        (ready_manager failing_commit_driver))))
  = 2%nat.
Proof.
  assert (Hb : forall b, b = failing_statement \/ b = (fun _ => ret tt) ->
                         leaves_lifecycle_alone b).
  { intros b [-> | ->] s d; exists []; simpl; rewrite app_nil_r; auto. }
  refine (proj2 (proj2 (@sequential_scopes_close_what_they_open
                          failing_commit_driver
                          [failing_statement; (fun _ => ret tt)]
                          (fun _ => eq_refl) _
                          (ready_manager failing_commit_driver) _ _
                          eq_refl eq_refl))).
  repeat constructor; apply Hb; auto.
Defined.

(** Every factory a manager holds was made by [init]: bound to the engine
    held, not expiring objects on commit. *)
Lemma reachable_factory driver st :
  reachable driver st ->
  forall maker, _sessionmaker (self st) = Some maker ->
                maker = mkSessionmaker (_engine (self st)) false.
Proof.
  induction 1 as [d | st c _ IH]; [discriminate|].
  destruct c as [url ps mo pp echo pc| |body|body]; simpl.
  - pose proof (init_outcome driver url ps mo pp echo pc st) as H.
    simpl in H. destruct (fst (init _ _ _ _ _ _ _ _)).
    + destruct H as (e & -> & _). simpl. now intros maker [= <-].
    + now rewrite H.
  - pose proof (close_outcome driver st) as H. simpl in H.
    destruct (fst (close driver st)).
    + destruct H as (_ & Hsome & Hnone).
      destruct (_engine (self st)) eqn:E.
      * rewrite Hsome by discriminate. discriminate.
      * rewrite Hnone by reflexivity. rewrite E. exact IH.
    + now rewrite H.
  - now rewrite session_keeps_manager.
  - now rewrite connect_keeps_manager.
Qed.

(** X13.  In every state a manager reaches, the [engine] property and
    [session()] agree.  Either the property returns an engine, and every
    session is made by a factory bound to that very engine (with
    expire-on-commit off); or the property raises the not-initialized error,
    and so does entering [session()], without a call to the database
    side. *)
Theorem engine_property_agrees_with_sessions driver st :
  reachable driver st ->
  match fst (engine st) with
  | Ok e =>
      snd (engine st) = st /\
      forall A (body : AsyncSession -> M Database A),
        session driver body st
        = lift_db (s <- sessionmaker_call driver (mkSessionmaker (Some e) false) ;;
                   session_scope driver s body) st
  | Raise x =>
      x = not_initialized /\
      forall A (body : AsyncSession -> M Database A),
        session driver body st = (Raise not_initialized, st)
  end.
Proof.
  intros Hr.
  pose proof (reachable_paired Hr) as Hp.
  pose proof (reachable_factory Hr) as Hf.
  unfold paired in Hp.
  destruct (_engine (self st)) as [e|] eqn:He;
    destruct (_sessionmaker (self st)) as [maker|] eqn:Hm; try contradiction.
  - specialize (Hf maker eq_refl). subst maker.
    assert (Hck : _check_init st = (Ok tt, st))
      by (eapply check_init_initialized; eauto).
    assert (Heng : engine st = (Ok e, st)).
    { unfold engine, bind at 1 2. rewrite Hck. unfold get_self.
      now rewrite He. }
    rewrite Heng. simpl. split; [reflexivity|]. intros A body.
    unfold session, bind at 1 2. rewrite Hck. unfold get_self. now rewrite Hm.
  - assert (Hck : _check_init st = (Raise not_initialized, st))
      by (apply check_init_uninitialized; auto).
    assert (Heng : engine st = (Raise not_initialized, st)).
    { unfold engine, bind at 1. now rewrite Hck. }
    rewrite Heng. simpl. split; [reflexivity|].
    intros A body. apply session_uninitialized. auto.
Qed.

Lemma engine_property_agrees_with_sessions_witness :
  session reliable_driver (fun _ => ret tt) (ready_manager reliable_driver)
  = lift_db
      (s <- sessionmaker_call reliable_driver
              (mkSessionmaker
                 (Some (mkEngine 0 sample_url
                          (init_engine_kwargs 5 10 true false None)))
                 false) ;;
       session_scope reliable_driver s (fun _ => ret tt))
      (ready_manager reliable_driver).
Proof.
  exact (proj2 (@engine_property_agrees_with_sessions reliable_driver
                  (ready_manager reliable_driver)
                  (reachable_call (call_init sample_url 5 10 true false None)
                     (reachable_new reliable_driver new_database)))
           unit (fun _ => ret tt)).
Defined.

(** ** More of the readiness endpoint *)

Lemma keys_set_new V (d : PyDict.t V) k v :
  ~ In k (PyDict.keys d) -> PyDict.keys (PyDict.set k v d) = PyDict.keys d ++ [k].
Proof.
  induction d as [|[k' v'] d IH]; simpl; intros H; [reflexivity|].
  destruct (String.eqb k k') eqn:E.
  - apply String.eqb_eq in E. subst. exfalso. apply H. now left.
  - simpl. rewrite IH; [reflexivity|]. intros Hin. apply H. now right.
Qed.

Section ReadinessOrder.
Variable logger : Logger.
Hypothesis logger_ok : logger_works logger.
Variable check_timeout : Z.

Lemma run_conditions_in_order conditions :
  forall results w,
    NoDup (PyDict.keys results ++ map condition_name conditions) ->
    exists results' w',
      run_conditions logger check_timeout conditions results w
        = (Ok results', w') /\
      PyDict.keys results'
        = PyDict.keys results ++ map condition_name conditions.
Proof.
  induction conditions as [|c conditions IH]; intros results w Hnd.
  - exists results, w. simpl. now rewrite app_nil_r.
  - destruct (run_condition_records logger_ok check_timeout results c w)
      as (w1 & H1).
    set (results1 := PyDict.set (condition_name c)
                       (recorded (fst (condition_call c w))) results) in *.
    assert (Hnew : ~ In (condition_name c) (PyDict.keys results)).
    { simpl in Hnd. apply NoDup_remove_2 in Hnd.
      intros Hin. apply Hnd. apply in_or_app. now left. }
    assert (Hkeys1 : PyDict.keys results1
                     = PyDict.keys results ++ [condition_name c]).
    { subst results1. now apply keys_set_new. }
    destruct (IH results1 w1) as (results' & w' & Hrun & Hkeys).
    { rewrite Hkeys1, <- app_assoc. exact Hnd. }
    exists results', w'. split.
    + simpl. unfold bind. rewrite H1. exact Hrun.
    + rewrite Hkeys, Hkeys1, <- app_assoc. reflexivity.
Qed.

(** X14.  When the registered conditions have distinct names and the
    logger writes, the reply of the readiness endpoint lists the checks in
    the order in which the conditions were registered, one entry for each. *)
Theorem readiness_lists_checks_in_order conditions w :
  NoDup (map condition_name conditions) ->
  exists reply w',
    readiness logger conditions check_timeout w = (Ok reply, w') /\
    PyDict.keys (reply_checks reply) = map condition_name conditions.
Proof.
  intros Hnd.
  destruct (@run_conditions_in_order conditions [] w Hnd)
    as (results & w' & Hrun & Hkeys).
  eexists. exists w'. split.
  - unfold readiness, bind. rewrite Hrun. reflexivity.
  - exact Hkeys.
Qed.

Lemma run_fixed_conditions checks :
  forall results w,
    exists results',
      run_conditions logger check_timeout (map fixed_condition checks) results w
      = (Ok results',
         with_log (log w ++ flat_map (check_log check_timeout (contextvars w)) checks)
           w).
Proof.
  induction checks as [|[name outcome] checks IH]; intros results w.
  - exists results. simpl. rewrite app_nil_r. now destruct w.
  - simpl. unfold bind at 1.
    unfold run_condition at 1. unfold fixed_condition at 1. simpl.
    unfold try_except, bind at 1, lift_result, check_log at 1,
      logger_warning, logger_exception, logger_log. simpl.
    destruct outcome as [b|e]; simpl.
    + unfold ret. apply IH.
    + destruct (is_TimeoutError e); unfold bind; rewrite logger_ok; simpl;
        unfold ret;
        match goal with
        | |- context [run_conditions _ _ _ ?r ?w1] =>
            destruct (IH r w1) as (results' & ->)
        end;
        exists results'; simpl; now rewrite <- app_assoc.
Qed.

(** X15.  For conditions that leave the process state alone, with a logger
    that writes, the readiness endpoint logs nothing for a check that
    returns, true or false; it logs one warning "readiness_check_timeout"
    with the check's name and the timeout for a check that timed out, and
    one error record "readiness_check_failed" with the check's name and the
    exception for a check that raised anything else, in the order of the
    checks; nothing else of the process state changes. *)
Theorem readiness_logs_failures_only checks w :
  snd (readiness logger (map fixed_condition checks) check_timeout w)
  = with_log (log w ++ flat_map (check_log check_timeout (contextvars w)) checks)
      w.
Proof.
  destruct (run_fixed_conditions checks [] w) as (results & Hrun).
  unfold readiness, bind. now rewrite Hrun.
Qed.

End ReadinessOrder.

Lemma readiness_lists_checks_in_order_witness :
  exists reply w',
    readiness working_logger [db_online; cache_online; queue_online] 5 new_world
      = (Ok reply, w') /\
    PyDict.keys (reply_checks reply)
      = ["_is_db_online"; "_is_cache_online"; "_is_queue_online"].
Proof.
  refine (@readiness_lists_checks_in_order working_logger (fun _ => eq_refl) 5
            [db_online; cache_online; queue_online] new_world _).
  repeat constructor; simpl; intuition discriminate.
Defined.

Lemma readiness_logs_failures_only_witness :
  map event
    (log (snd (readiness working_logger
                 (map fixed_condition
                    [("_is_db_online", Ok false);
                     ("_is_cache_online", Raise TimeoutError)])
                 5 new_world)))
  = ["readiness_check_timeout"].
Proof.
  rewrite (@readiness_logs_failures_only working_logger (fun _ => eq_refl) 5
             [("_is_db_online", Ok false);
              ("_is_cache_online", Raise TimeoutError)] new_world).
  reflexivity.
Defined.

(** ** Retrying *)

Section TenacityFacts.
Variable A : Type.
Variable self : Retrying.t.
Variable random_uniform : Z -> Z -> Z.
Variable fn : M World A.

Local Abbreviation loop := (retry_loop self random_uniform fn).

Lemma retry_loop_attempts fuel :
  forall n idle start w,
    n <= Retrying.attempt_number (fst (loop fuel n idle start w))
      <= n + Z.of_nat fuel.
Proof.
  induction fuel as [|fuel IH]; intros n idle start w; simpl;
    destruct (fn w) as [[a|e] w1]; simpl; try lia;
    destruct (negb (Retrying.retry_on self e)); simpl; try lia;
    destruct (should_stop self n (clock w1 - start)); simpl; try lia.
  match goal with
  | |- context [loop fuel ?n' ?i' ?s' ?w'] =>
      specialize (IH n' i' s' w')
  end.
  lia.
Qed.

(** X16.  The retried operation is called at least once and at most
    [max_attempts] times (once when [max_attempts] is below one), whatever
    it does and however long it takes. *)
Theorem retrying_attempts_are_bounded w :
  1 <= Retrying.attempt_number (fst (retrying self random_uniform fn w))
    <= Z.max 1 (Retrying.max_attempts self).
Proof.
  unfold retrying.
  pose proof (retry_loop_attempts
                (Z.to_nat (Retrying.max_attempts self - 1)) 1 0 (clock w) w).
  lia.
Qed.

Lemma retry_loop_gives_up_for_a_reason fuel :
  forall n idle start w,
    Retrying.max_attempts self - n <= Z.of_nat fuel ->
    let out := loop fuel n idle start w in
    exists w0,
      fst (fn w0) = Retrying.outcome (fst out) /\
      snd (fn w0) = snd out /\
      match Retrying.outcome (fst out) with
      | Ok _ => True
      | Raise e =>
          Retrying.retry_on self e = false \/
          Retrying.max_attempts self <= Retrying.attempt_number (fst out) \/
          Retrying.max_delay_seconds self <= clock (snd out) - start
      end.
Proof.
  induction fuel as [|fuel IH]; intros n idle start w Hfuel; simpl.
  - destruct (fn w) as [[a|e] w1] eqn:E; simpl.
    + exists w. rewrite E. auto.
    + destruct (Retrying.retry_on self e) eqn:Er; simpl.
      * destruct (should_stop self n (clock w1 - start)) eqn:Es; simpl;
          exists w; rewrite E; simpl; (split; [reflexivity|]);
          (split; [reflexivity|]).
        -- unfold should_stop in Es. apply orb_prop in Es.
           destruct Es as [Es|Es]; apply Z.leb_le in Es; auto.
        -- right. left. simpl in Hfuel. lia.
      * exists w. rewrite E. simpl. auto.
  - destruct (fn w) as [[a|e] w1] eqn:E; simpl.
    + exists w. rewrite E. auto.
    + destruct (Retrying.retry_on self e) eqn:Er; simpl.
      * destruct (should_stop self n (clock w1 - start)) eqn:Es; simpl.
        -- exists w. rewrite E. simpl. split; [reflexivity|].
           split; [reflexivity|].
           unfold should_stop in Es. apply orb_prop in Es.
           destruct Es as [Es|Es]; apply Z.leb_le in Es; auto.
        -- apply IH. lia.
      * exists w. rewrite E. simpl. auto.
Qed.

(** X17.  For a policy without pass-through keywords, what the retried
    call yields is what the operation did in its last attempt: its return
    value, or the very exception it raised (never a wrapper around it).  It
    gives up on an exception only for a reason: the exception is not of a
    retried type, or the last attempt was number [max_attempts] or later, or
    [max_delay_seconds] had passed since the start when the attempt ended. *)
Theorem retrying_gives_up_for_a_reason w :
  Retrying.tenacity_kwargs self = [] ->
  let out := retrying self random_uniform fn w in
  exists w0,
    fst (fn w0) = Retrying.outcome (fst out) /\
    snd (fn w0) = snd out /\
    match Retrying.outcome (fst out) with
    | Ok _ => True
    | Raise e =>
        Retrying.retry_on self e = false \/
        Retrying.max_attempts self <= Retrying.attempt_number (fst out) \/
        Retrying.max_delay_seconds self <= clock (snd out) - clock w
    end.
Proof.
  intros _. unfold retrying. apply retry_loop_gives_up_for_a_reason. lia.
Qed.

Hypothesis uniform_in_range :
  forall n high, 0 <= high -> 0 <= random_uniform n high <= high.

Lemma wait_high_bounds n :
  0 <= wait_high self n <= Z.max 0 (Retrying.wait_max self).
Proof. unfold wait_high. lia. Qed.

Lemma retry_loop_idle fuel :
  forall n idle start w,
    let out := fst (loop fuel n idle start w) in
    idle <= Retrying.idle_for out
         <= idle + (Retrying.attempt_number out - n)
                   * Z.max 0 (Retrying.wait_max self).
Proof.
  induction fuel as [|fuel IH]; intros n idle start w; simpl;
    destruct (fn w) as [[a|e] w1]; simpl; try lia;
    destruct (negb (Retrying.retry_on self e)); simpl; try lia;
    destruct (should_stop self n (clock w1 - start)); simpl; try lia.
  match goal with
  | |- context [loop fuel ?n' ?i' ?s' ?w'] =>
      pose proof (IH n' i' s' w') as H;
      pose proof (retry_loop_attempts fuel n' i' s' w') as Hn
  end.
  simpl in H.
  pose proof (wait_high_bounds n) as Hh.
  pose proof (uniform_in_range n (proj1 Hh)) as Hu.
  nia.
Qed.

(** X18.  When every draw lies between zero and its upper end, no wait
    between two attempts exceeds [wait_max], so the time slept in all is at
    most [wait_max] for each attempt after the first (and none at all when
    [wait_max] is not positive). *)
Theorem retrying_sleeps_within_wait_max w :
  let out := fst (retrying self random_uniform fn w) in
  0 <= Retrying.idle_for out
    <= (Retrying.attempt_number out - 1) * Z.max 0 (Retrying.wait_max self).
Proof.
  unfold retrying.
  pose proof (retry_loop_idle
                (Z.to_nat (Retrying.max_attempts self - 1)) 1 0 (clock w) w).
  simpl in H. lia.
Qed.

End TenacityFacts.

Lemma retrying_gives_up_for_a_reason_witness :
  exists w0,
    fst (ok_after 10000 w0)
    = Retrying.outcome
        (fst (retrying three_attempts full_wait (ok_after 10000) new_world)).
Proof.
  destruct (@retrying_gives_up_for_a_reason string three_attempts full_wait
              (ok_after 10000) new_world eq_refl) as (w0 & H & _).
  exists w0. exact H.
Defined.

Lemma retrying_sleeps_within_wait_max_witness :
  0 <= Retrying.idle_for
         (fst (retrying three_attempts full_wait (ok_after 2500) new_world))
    <= (Retrying.attempt_number
          (fst (retrying three_attempts full_wait (ok_after 2500) new_world))
        - 1) * Z.max 0 10000.
Proof.
  refine (@retrying_sleeps_within_wait_max string three_attempts full_wait
            (ok_after 2500) _ new_world).
  unfold full_wait. intros n high H. lia.
Defined.

(** The second test of the suite: two transient failures, then success at
    the third attempt, after waits of one and two seconds. *)
Example retrying_succeeds_at_the_third_attempt :
  fst (retrying three_attempts full_wait (ok_after 2500) new_world)
  = Retrying.mkState (Ok "ok") 3 3000.
Proof. vm_compute. reflexivity. Qed.

Lemma str_mem_true k l : In k l -> str_mem k l = true.
Proof.
  intros H. unfold str_mem. apply existsb_exists. exists k.
  split; [exact H | apply String.eqb_refl].
Qed.

(** X19.  [retry_on_transient] raises [TypeError] exactly when its
    pass-through keywords contain [wait], [stop], [retry], [before_sleep] or
    [reraise], which it sets itself; otherwise it returns the policy made
    of its arguments. *)
Theorem retry_on_transient_keywords max_attempts max_delay_seconds
    wait_multiplier wait_max retry_on tenacity_kwargs :
  let made :=
    retry_on_transient max_attempts max_delay_seconds wait_multiplier
      wait_max retry_on tenacity_kwargs in
  ((exists k, In k (PyDict.keys tenacity_kwargs) /\ In k retry_keywords) <->
   (exists message, made = Raise (TypeError message))) /\
  ((forall k, In k (PyDict.keys tenacity_kwargs) -> ~ In k retry_keywords) <->
   made = Ok (Retrying.mk max_attempts max_delay_seconds wait_multiplier
                wait_max retry_on tenacity_kwargs)).
Proof.
  intros made. subst made. unfold retry_on_transient.
  destruct (find _ _) as [k|] eqn:E.
  - apply find_some in E. destruct E as [Hin Hmem].
    assert (Hk : In k retry_keywords).
    { unfold str_mem in Hmem. apply existsb_exists in Hmem.
      destruct Hmem as (k' & Hk' & Heq). apply String.eqb_eq in Heq.
      now subst. }
    split; split.
    + eauto.
    + eauto.
    + intros H. exfalso. eapply H; eauto.
    + discriminate.
  - split; split.
    + intros (k & Hin & Hk). pose proof (find_none _ _ E k Hin) as Hn.
      cbv beta in Hn. rewrite str_mem_true in Hn by exact Hk. discriminate.
    + intros (message & H). discriminate.
    + reflexivity.
    + intros _ k Hin Hk. pose proof (find_none _ _ E k Hin) as Hn.
      cbv beta in Hn. rewrite str_mem_true in Hn by exact Hk. discriminate.
Qed.

Lemma retry_on_transient_keywords_witness :
  exists message,
    retry_on_transient 3 60 1 10 is_TransientError [("reraise", VBool false)]
    = Raise (TypeError message).
Proof.
  refine (proj1 (proj1 (@retry_on_transient_keywords 3 60 1 10
                          is_TransientError [("reraise", VBool false)])) _).
  exists "reraise". simpl. auto 10.
Defined.

(** ** The database check of the command line *)

Lemma init_defaults_step driver url st :
  let i := next_id (database st) in
  let kwargs := init_engine_kwargs 5 10 true false None in
  let d := mkDatabase (Datatypes.S i)
             (calls (database st) ++ [create_engine i url kwargs]) in
  init driver url 5 10 true false None st
  = match fault driver (create_engine i url kwargs) with
    | Some x => (Raise x, mkState (self st) d)
    | None =>
        (Ok tt,
         mkState (mk (Some (mkEngine i url kwargs))
                    (Some (mkSessionmaker (Some (mkEngine i url kwargs)) false)))
           d)
    end.
Proof.
  unfold init, create_async_engine, fresh_id, driver_call, lift_db,
    set_engine, set_sessionmaker, get_self, init_engine_kwargs.
  unfold_monad. simpl.
  destruct (fault driver _); reflexivity.
Qed.

(** [_check] after an [init] that returned: whatever the session does, the
    last call is the dispose of the engine just created. *)
Lemma check_disposes_its_engine driver logger url select_1 p r p' :
  let i := next_id (database (session_manager p)) in
  fault driver (create_engine i url (init_engine_kwargs 5 10 true false None))
    = None ->
  _check driver logger url select_1 p = (r, p') ->
  stderr p' = stderr p /\
  (exists before,
      calls (database (session_manager p')) = before ++ [engine_dispose i]) /\
  (fault driver (engine_dispose i) = None ->
   self (session_manager p') = __init__).
Proof.
  intros i Hcreate.
  unfold _check, on_manager at 1.
  unfold bind at 1.
  rewrite init_defaults_step. fold i. rewrite Hcreate.
  set (engine0 := mkEngine i url (init_engine_kwargs 5 10 true false None)).
  set (p1 := mkProcess _ (process_world p) (stderr p)).
  unfold try_finally.
  destruct ((on_manager (session driver select_1);;
             on_world (logger_info logger "db_check_ok" [])) p1)
    as [r2 p2] eqn:E2.
  assert (Hp2 : self (session_manager p2)
                = mk (Some engine0) (Some (mkSessionmaker (Some engine0) false))
                /\ stderr p2 = stderr p).
  { revert E2. unfold bind, on_manager, on_world, logger_info, logger_log.
    pose proof (session_keeps_manager driver select_1 (session_manager p1)) as Hk.
    destruct (session driver select_1 (session_manager p1)) as [[u|x] st2];
      simpl in *.
    - destruct (log_fault logger _); intros [= <- <-]; simpl; auto.
    - intros [= <- <-]. simpl. auto. }
  destruct Hp2 as [Hself2 Herr2].
  unfold on_manager, close, AsyncEngine_dispose, driver_call, lift_db,
    set_engine, set_sessionmaker, get_self.
  unfold_monad. rewrite Hself2. simpl.
  destruct (fault driver (engine_dispose i)); simpl;
    intros [= <- <-]; simpl;
    (split; [exact Herr2|]); (split; [eauto|]); intros; auto; congruence.
Qed.

(** X20.  With a logger that writes, [db_check] ends in one of two ways:
    it returns, or it exits with code 2 after echoing one line to standard
    error; it never ends with another exit code or with an exception.  When
    the engine could be created, the last call to the database side is the
    dispose of that engine, also when the session, the statement or the
    commit failed, and the manager holds neither engine nor factory once
    the dispose succeeded. *)
Theorem db_check_exits_with_2_and_closes driver logger url select_1 p :
  logger_works logger ->
  let out := db_check driver logger url select_1 p in
  let i := next_id (database (session_manager p)) in
  ((fst out = returned /\ stderr (snd out) = stderr p) \/
   (exists exc,
       fst out = SystemExit 2 /\
       stderr (snd out) = stderr p ++ [("Database check failed: ", exc)])) /\
  (fault driver (create_engine i url (init_engine_kwargs 5 10 true false None))
     = None ->
   (exists before,
       calls (database (session_manager (snd out)))
         = before ++ [engine_dispose i]) /\
   (fault driver (engine_dispose i) = None ->
    self (session_manager (snd out)) = __init__)).
Proof.
  intros Hlog out i. subst out.
  assert (Herr : forall r p', _check driver logger url select_1 p = (r, p') ->
                              stderr p' = stderr p).
  { intros r p' E.
    destruct (fault driver (create_engine i url
                              (init_engine_kwargs 5 10 true false None)))
      eqn:Hc.
    - revert E. unfold _check, on_manager at 1. unfold bind at 1.
      rewrite init_defaults_step. fold i. rewrite Hc.
      intros [= <- <-]. reflexivity.
    - pose proof (@check_disposes_its_engine driver logger url select_1 p
                    r p' Hc E) as H. tauto. }
  unfold db_check.
  destruct (_check driver logger url select_1 p) as [[u|exc] p'] eqn:E.
  - pose proof (Herr _ _ eq_refl) as He. simpl. split.
    + left. auto.
    + intros Hc.
      pose proof (@check_disposes_its_engine driver logger url select_1 p
                    _ _ Hc E) as H. simpl. tauto.
  - pose proof (Herr _ _ eq_refl) as He.
    unfold on_world, logger_exception, logger_log. rewrite Hlog. simpl. split.
    + right. exists exc. rewrite He. auto.
    + intros Hc.
      pose proof (@check_disposes_its_engine driver logger url select_1 p
                    _ _ Hc E) as H. simpl. tauto.
Qed.

Lemma db_check_exits_with_2_and_closes_witness :
  fst (db_check failing_commit_driver working_logger sample_url
         (fun _ => ret tt) new_process)
    = SystemExit 2 /\
  self (session_manager
          (snd (db_check failing_commit_driver working_logger sample_url
                  (fun _ => ret tt) new_process)))
    = __init__.
Proof.
  pose proof (@db_check_exits_with_2_and_closes failing_commit_driver
                working_logger sample_url (fun _ => ret tt) new_process
                (fun _ => eq_refl)) as H.
  split.
  - vm_compute. reflexivity.
  - exact (proj2 (proj2 H eq_refl) eq_refl).
Defined.
